(** * CppMicroServices: bundle contexts, service handles and service objects

    A shallow embedding of
    - [framework/src/bundle/BundleContext.cpp] and
    - [framework/src/service/ServiceObjects.cpp].

    Objects that the C++ code reaches through pointers live in an explicit
    store ([World]); every member function becomes a computation in a state
    and exception monad over that store.  The parts of the framework that
    these two files only call into (bundle registry, service registry,
    listeners, hooks) are collaborators behind one interface, and every call
    made to them is recorded in a trace. *)

From stdpp Require Import gmap strings list fin_maps.
From Stdlib Require Import ZArith.

Set Default Proof Using "Type".
Set Warnings "-clear-no-such-hyp".

(** ** Exceptions and results *)

Inductive exception : Type :=
| runtime_error (what : string)
| invalid_argument (what : string)
| other_exception (what : string).

Definition exception_what (e : exception) : string :=
  match e with
  | runtime_error s | invalid_argument s | other_exception s => s
  end.

Inductive result (A : Type) : Type :=
| Ok (a : A)
| Throw (e : exception).
Arguments Ok {A} a.
Arguments Throw {A} e.

(** What a function returns when it may leave defined behaviour: a value, or
    nothing that the language defines. *)
Inductive outcome (A : Type) : Type :=
| Value (a : A)
| Undefined.
Arguments Value {A} a.
Arguments Undefined {A}.

(** ** Plain data *)

(** Addresses of heap objects.  A [shared_ptr] or a raw pointer is an
    [option addr] ([None] is [nullptr]); comparing two pointers compares the
    addresses. *)
Definition addr := positive.

Definition ptr_eqb (p q : option addr) : bool := bool_decide (p = q).

Definition ptr_ltb (p q : option addr) : bool :=
  match p, q with
  | None, None => false
  | None, Some _ => true
  | Some _, None => false
  | Some a, Some b => Pos.ltb a b
  end.

Inductive Any : Type :=
| Any_empty
| Any_string (s : string)
| Any_int (z : Z)
| Any_bool (b : bool).

Abbreviation AnyMap := (gmap string Any).

(** [InterfaceMap]: interface id to service object.  A
    [shared_ptr<const InterfaceMap>] is an [option InterfaceMap]: the map it
    points to, by contents. *)
Abbreviation InterfaceMap := (gmap string addr).
Definition InterfaceMapConstPtr := option InterfaceMap.

(** [BundleContext] holds [d], a [shared_ptr<BundleContextPrivate>]. *)
Record BundleContext : Type := MakeBundleContext { d : option addr }.

(** [Bundle] is a handle on a [shared_ptr<BundlePrivate>]. *)
Record Bundle : Type := MakeBundle { GetPrivate : option addr }.

(** A [weak_ptr<BundlePrivate>]. *)
Definition weak_ptr := option addr.

Record BundleContextPrivate : Type := {
  bundle : weak_ptr;
  valid : bool;
}.

Record BundlePrivate : Type := {
  bundleDir : string;
}.

(** A service reference names a registration ([None] when default
    constructed) and carries the interface id it was obtained for. *)
Record ServiceReferenceBase : Type := {
  registration : option addr;
  GetInterfaceId : string;
}.
Definition ServiceReferenceU := ServiceReferenceBase.

Definition ServiceReference_default : ServiceReferenceBase :=
  {| registration := None; GetInterfaceId := "" |}.

Record ServiceRegistrationU : Type := { registered : option addr }.

Definition ListenerTokenId := N.
Record ListenerToken : Type := { token_id : ListenerTokenId }.

(** Listener callables ([std::function] objects) by identity. *)
Definition ServiceListener := N.
Definition BundleListener := N.
Definition FrameworkListener := N.

(** ** Calls into the rest of the framework

    One constructor per member function of [CoreBundleContext]'s parts and of
    [ServiceReferenceBasePrivate] that the two files call; the index is the
    C++ return type.  A [BundlePrivate*] argument ([b.get()]) is an
    [option addr]. *)
Inductive CoreCall : Type → Type :=
| bundleRegistry_GetBundle (id : Z) : CoreCall (option addr)
| bundleRegistry_GetBundles_location (location : string) : CoreCall (list (option addr))
| bundleRegistry_GetBundles : CoreCall (list (option addr))
| bundleRegistry_Install (location : string) (caller : option addr) (bundleManifest : AnyMap)
  : CoreCall (list Bundle)
| bundleHooks_FilterBundle (ctx : BundleContext) (b : Bundle) : CoreCall Bundle
| bundleHooks_FilterBundles (ctx : BundleContext) (bus : list Bundle) : CoreCall (list Bundle)
| services_RegisterService (b : option addr) (service : InterfaceMapConstPtr) (properties : AnyMap)
  : CoreCall ServiceRegistrationU
| services_Get_filter (clazz filter : string) (b : option addr) : CoreCall (list ServiceReferenceBase)
| services_Get (b : option addr) (clazz : string) : CoreCall ServiceReferenceU
| listeners_AddServiceListener (ctx : addr) (delegate : ServiceListener) (data : option addr)
    (filter : string) : CoreCall ListenerToken
| listeners_RemoveServiceListener (ctx : addr) (tokenId : ListenerTokenId)
    (delegate : ServiceListener) (data : option addr) : CoreCall unit
| listeners_AddBundleListener (ctx : addr) (delegate : BundleListener) (data : option addr)
  : CoreCall ListenerToken
| listeners_RemoveBundleListener (ctx : addr) (delegate : BundleListener) (data : option addr)
  : CoreCall unit
| listeners_AddFrameworkListener (ctx : addr) (listener : FrameworkListener) (data : option addr)
  : CoreCall ListenerToken
| listeners_RemoveFrameworkListener (ctx : addr) (listener : FrameworkListener)
    (data : option addr) : CoreCall unit
| listeners_RemoveListener (ctx : addr) (token : ListenerToken) : CoreCall unit
| reference_GetService (sref : ServiceReferenceBase) (b : option addr) : CoreCall (option addr)
| reference_GetServiceInterfaceMap (sref : ServiceReferenceBase) (b : option addr)
  : CoreCall InterfaceMapConstPtr
| reference_GetPrototypeService (sref : ServiceReferenceBase) (b : Bundle)
  : CoreCall InterfaceMapConstPtr
| reference_UngetService (sref : ServiceReferenceBase) (b : option addr)
    (checkRefCounter : bool) : CoreCall bool
| reference_UngetPrototypeService (sref : ServiceReferenceBase) (b : option addr)
    (service : InterfaceMapConstPtr) : CoreCall bool.

Definition Event : Type := sigT CoreCall.
Definition event {R} (c : CoreCall R) : Event := existT R c.

(** The collaborators.  [core_step] runs one call: it may change the core's
    state and may raise.  The remaining members are the [const] queries the
    two files make.

    Modelled from the spec: [reference_bool] stands for
    [ServiceReferenceBase::operator bool] on a reference that names a
    registration (the spec: a reference pairs a service id with a weak
    reference to its registration), and [reference_scope] for
    [GetProperty(Constants::SERVICE_SCOPE).ToString()]; both are declared in
    headers whose implementation is not part of the two files. *)
Class CoreBundleContext (Core : Type) : Type := {
  core_step : ∀ R, CoreCall R → Core → result R * Core;
  frameworkProperties : Core → AnyMap;
  reference_bool : addr → Core → bool;
  reference_scope : ServiceReferenceBase → Core → string;
}.
Arguments core_step {Core _ R} _ _.

(** Modelled from the spec: the constant [Constants::SCOPE_PROTOTYPE]
    (the spec's [service.scope] value [prototype]). *)
Definition SCOPE_PROTOTYPE : string := "prototype".

(** ** The store *)

(** What a [shared_ptr] control block created by the two files owns. *)
Inductive Holder : Type :=
| ServiceHolder_void (b : weak_ptr) (sref : ServiceReferenceBase) (service : option addr)
| ServiceHolder_map (b : weak_ptr) (sref : ServiceReferenceBase) (service : InterfaceMapConstPtr)
| UngetHelper (interfaceMap : InterfaceMapConstPtr) (sref : ServiceReferenceBase) (b : weak_ptr).

Record World (Core : Type) : Type := mkWorld {
  contexts : gmap addr BundleContextPrivate;
  bundles : gmap addr BundlePrivate;
  core : Core;
  directories : gset string;
  sink : list string;
  trace : list Event;
  holders : gmap addr (nat * Holder);
}.
Arguments mkWorld {Core}.
Arguments contexts {Core}.
Arguments bundles {Core}.
Arguments core {Core}.
Arguments directories {Core}.
Arguments sink {Core}.
Arguments trace {Core}.
Arguments holders {Core}.

(** A [shared_ptr] returned to the caller: the control block it shares
    ownership with, and the pointer it stores. *)
Record shared_ptr (A : Type) : Type := {
  owner : option addr;
  get : A;
}.
Arguments owner {A}.
Arguments get {A}.

Definition nullptr {A} : shared_ptr (option A) := {| owner := None; get := None |}.

(** ** The monad *)

Section Monad.
Context {Core : Type}.

Definition M (A : Type) : Type := World Core → result A * World Core.

Definition ret {A} (a : A) : M A := λ w, (Ok a, w).

Definition throw {A} (e : exception) : M A := λ w, (Throw e, w).

Definition bind {A B} (m : M A) (k : A → M B) : M B :=
  λ w, match m w with
       | (Ok a, w') => k a w'
       | (Throw e, w') => (Throw e, w')
       end.

(** [try { body } catch (...) { handler }] *)
Definition try_catch {A} (body : M A) (handler : exception → M A) : M A :=
  λ w, match body w with
       | (Ok a, w') => (Ok a, w')
       | (Throw e, w') => handler e w'
       end.

Definition gets {A} (f : World Core → A) : M A := λ w, (Ok (f w), w).

Definition modify (f : World Core → World Core) : M unit := λ w, (Ok tt, f w).
End Monad.

Notation "'let*' x ':=' m 'in' k" := (bind m (λ x, k))
  (at level 10, x binder, m at level 100, k at level 200,
   format "'let*'  x  ':='  m  'in' '//' k").
Notation "m ';;' k" := (bind m (λ _, k))
  (at level 100, k at level 200, right associativity,
   format "m ';;' '//' k").

Section Store.
Context {Core : Type} `{!CoreBundleContext Core}.
Local Abbreviation M := (@M Core).

Definition set_core (c : Core) (w : World Core) : World Core :=
  mkWorld (contexts w) (bundles w) c (directories w) (sink w) (trace w) (holders w).

Definition set_trace (t : list Event) (w : World Core) : World Core :=
  mkWorld (contexts w) (bundles w) (core w) (directories w) (sink w) t (holders w).

Definition set_sink (s : list string) (w : World Core) : World Core :=
  mkWorld (contexts w) (bundles w) (core w) (directories w) s (trace w) (holders w).

Definition set_directories (ds : gset string) (w : World Core) : World Core :=
  mkWorld (contexts w) (bundles w) (core w) ds (sink w) (trace w) (holders w).

Definition set_holders (hs : gmap addr (nat * Holder)) (w : World Core) : World Core :=
  mkWorld (contexts w) (bundles w) (core w) (directories w) (sink w) (trace w) hs.

Definition set_contexts (cs : gmap addr BundleContextPrivate) (w : World Core) : World Core :=
  mkWorld cs (bundles w) (core w) (directories w) (sink w) (trace w) (holders w).

(** A call into a collaborator: recorded, then run. *)
Definition call {R} (c : CoreCall R) : M R :=
  λ w, let '(r, c') := core_step c (core w) in
       (r, set_core c' (set_trace (trace w ++ [event c]) w)).

(** [wp.lock()]: the bundle's address and fields while it is alive. *)
Definition lock (wp : weak_ptr) (w : World Core) : option (addr * BundlePrivate) :=
  match wp with
  | None => None
  | Some a => match bundles w !! a with
              | Some bp => Some (a, bp)
              | None => None
              end
  end.

Definition expired (wp : weak_ptr) (w : World Core) : bool :=
  match lock wp w with Some _ => false | None => true end.

(** Modelled from the spec: [ServiceReferenceBase::operator bool], which is
    implemented outside the two files.  A default-constructed reference
    converts to [false] ([GetService] raises "Default constructed
    ServiceReference is not a valid input" exactly when [!reference]); a
    reference that names a registration asks the registry. *)
Definition ServiceReference_bool (r : ServiceReferenceBase) (w : World Core) : bool :=
  match registration r with
  | None => false
  | Some reg => reference_bool reg (core w)
  end.

(** Modelled from the spec: the macro [DIAG_LOG(sink) << msg] ([Log.h]); the
    spec: destruction paths log and swallow.  The log sink is the list of
    lines written to it. *)
Definition DIAG_LOG (msg : string) : M unit :=
  modify (λ w, set_sink (sink w ++ [msg]) w).
End Store.

(** ** Automatic unget: the two holder destructors *)

Module ServiceHolder.
Section Impl.
Context {Core : Type} `{!CoreBundleContext Core}.
Local Abbreviation M := (@M Core).

(** [~ServiceHolder()], [BundleContext.cpp].  The same body serves
    [ServiceHolder<void>] and [ServiceHolder<const InterfaceMap>]. *)
Definition try_block (b : weak_ptr) (sref : ServiceReferenceBase) : M unit :=
  let* locked := gets (lock b) in
  call (reference_UngetService sref (fst <$> locked) true) ;;
  ret tt.

Definition catch_block (b : weak_ptr) (e : exception) : M unit :=
  let* gone := gets (expired b) in
  if negb gone
  then DIAG_LOG ("UngetService threw an exception. " +:+ exception_what e)
  else ret tt.

Definition destructor (b : weak_ptr) (sref : ServiceReferenceBase) : M unit :=
  try_catch (try_block b sref) (catch_block b).
End Impl.
End ServiceHolder.

Module UngetHelper.
Section Impl.
Context {Core : Type} `{!CoreBundleContext Core}.
Local Abbreviation M := (@M Core).

(** [~UngetHelper()], [ServiceObjects.cpp]. *)
Definition try_block (interfaceMap : InterfaceMapConstPtr) (sref : ServiceReferenceBase)
    (b : weak_ptr) : M unit :=
  let* bundle := gets (lock b) in
  let* sref_ok := gets (ServiceReference_bool sref) in
  if sref_ok
  then
    let* scope := gets (λ w, reference_scope sref (core w)) in
    let isPrototypeScope := bool_decide (scope = SCOPE_PROTOTYPE) in
    if isPrototypeScope
    then call (reference_UngetPrototypeService sref (fst <$> bundle) interfaceMap) ;;
         ret tt
    else call (reference_UngetService sref (fst <$> bundle) true) ;;
         ret tt
  else ret tt.

Definition catch_block (b : weak_ptr) (e : exception) : M unit :=
  let* gone := gets (expired b) in
  if negb gone
  then DIAG_LOG ("UngetHelper threw an exception. " +:+ exception_what e)
  else ret tt.

Definition destructor (interfaceMap : InterfaceMapConstPtr) (sref : ServiceReferenceBase)
    (b : weak_ptr) : M unit :=
  try_catch (try_block interfaceMap sref b) (catch_block b).
End Impl.
End UngetHelper.

(** ** Shared ownership *)

Section SharedPtr.
Context {Core : Type} `{!CoreBundleContext Core}.
Local Abbreviation M := (@M Core).

(** The destructor of the object a control block owns. *)
Definition destroy (h : Holder) : M unit :=
  match h with
  | ServiceHolder_void b sref _ => ServiceHolder.destructor b sref
  | ServiceHolder_map b sref _ => ServiceHolder.destructor b sref
  | UngetHelper interfaceMap sref b => UngetHelper.destructor interfaceMap sref b
  end.

(** [std::shared_ptr<T>(new T(...))] and [std::make_shared<T>(...)]: a new
    control block, use count 1. *)
Definition make_shared (h : Holder) : M addr :=
  λ w : World Core,
    let a := fresh (dom (holders w)) in
    (Ok a, set_holders (<[a := (1, h)]> (holders w)) w).

(** Copy construction of a [shared_ptr] that shares block [a]. *)
Definition copy (a : addr) : M unit :=
  modify (λ w, set_holders (alter (λ '(n, h), (S n, h)) a (holders w)) w).

(** Destruction of one [shared_ptr] that shares block [a]: the use count
    drops, and the owned object is destroyed with the last owner.  A pointer
    that owns nothing ([nullptr]) is destroyed without effect. *)
Definition release (a : addr) : M unit :=
  λ w : World Core,
    match holders w !! a with
    | None => (Ok tt, w)
    | Some (S (S n), h) => (Ok tt, set_holders (<[a := (S n, h)]> (holders w)) w)
    | Some (_, h) => destroy h (set_holders (delete a (holders w)) w)
    end.

Definition use_count (a : addr) (w : World Core) : nat :=
  match holders w !! a with
  | Some (n, _) => n
  | None => 0
  end.
End SharedPtr.

(** ** [BundleContext.cpp] *)

Module BundleContext.
Section Impl.
Context {Core : Type} `{!CoreBundleContext Core}.
Local Abbreviation M := (@M Core).

(** [util::DIR_SEP], fixed per platform in a header outside the two files. *)
Variable DIR_SEP : string.

Definition no_longer_valid : string := "The bundle context is no longer valid".
Definition default_reference : string :=
  "Default constructed ServiceReference is not a valid input to GetService()".

(** Modelled from the spec: [BundleContextPrivate::IsValid], [CheckValid]
    and [Invalidate] are implemented outside the two files.  The spec: the
    context guards every operation with a validity check, is invalidated on
    stop, and any later call fails with a "context no longer valid" error.
    A [shared_ptr] keeps its pointee allocated; an address with no object
    behind it is read as an invalidated context. *)
Definition IsValid (p : addr) (w : World Core) : bool :=
  match contexts w !! p with
  | Some c => valid c
  | None => false
  end.

(** Modelled from the spec: [BundleContextPrivate::CheckValid] raises the
    "context no longer valid" error on an invalidated context. *)
Definition CheckValid (p : addr) : M unit :=
  λ w, if IsValid p w then (Ok tt, w) else (Throw (runtime_error no_longer_valid), w).

(** Modelled from the spec: [BundleContextPrivate::Invalidate], what bundle
    stop does to the context. *)
Definition Invalidate (p : addr) (w : World Core) : World Core :=
  set_contexts (alter (λ c, {| bundle := bundle c; valid := false |}) p (contexts w)) w.

(** [d->bundle] *)
Definition context_bundle (p : addr) (w : World Core) : weak_ptr :=
  match contexts w !! p with
  | Some c => bundle c
  | None => None
  end.

(** Modelled from the spec: [util::Exists] and [util::MakePath]
    ([FileSystem.h]).  The spec: the core creates the per-bundle data
    directory on the first [GetDataFile] request.  The file system is the
    set of directories that exist. *)
Definition Exists (path : string) (w : World Core) : bool :=
  bool_decide (path ∈ directories w).

(** Modelled from the spec: [util::MakePath] creates the directory. *)
Definition MakePath (path : string) : M unit :=
  modify (λ w, set_directories ({[path]} ∪ directories w) w).

(** [d->Lock()] guards the read of [d->bundle]; it has no counterpart in a
    sequential store. *)
Definition GetAndCheckBundlePrivate (p : addr) : M (addr * BundlePrivate) :=
  λ w, match lock (context_bundle p w) w with
       | None => (Throw (runtime_error no_longer_valid), w)
       | Some b => (Ok b, w)
       end.

Definition default_constructed : BundleContext := MakeBundleContext None.

(** [operator bool] *)
Definition to_bool (this : BundleContext) (w : World Core) : bool :=
  match d this with
  | None => false
  | Some p => IsValid p w
  end.

(** [operator==] *)
Definition eq (this rhs : BundleContext) (w : World Core) : bool :=
  if to_bool this w
  then (if to_bool rhs w then ptr_eqb (d this) (d rhs) else false)
  else negb (to_bool rhs w).

(** [operator!=] *)
Definition ne (this rhs : BundleContext) (w : World Core) : bool :=
  negb (eq this rhs w).

(** [operator<] *)
Definition lt (this rhs : BundleContext) (w : World Core) : bool :=
  if to_bool this w
  then (if to_bool rhs w then ptr_ltb (d this) (d rhs) else true)
  else false.

(** [operator=(nullptr_t)] *)
Definition assign_nullptr (this : BundleContext) : BundleContext := MakeBundleContext None.

(** The three statements every member function starts with. *)
Definition enter (this : BundleContext) : M (addr * (addr * BundlePrivate)) :=
  match d this with
  | None => throw (runtime_error no_longer_valid)
  | Some p =>
      CheckValid p ;;
      let* b := GetAndCheckBundlePrivate p in
      ret (p, b)
  end.

(** [GetLogSink] hands out the core's log sink, which the store keeps as
    [sink]; the handle itself carries nothing. *)
Definition GetLogSink (this : BundleContext) : M unit :=
  match d this with
  | None => throw (runtime_error no_longer_valid)
  | Some p =>
      CheckValid p ;;
      let* bundle_ := gets (λ w, lock (context_bundle p w) w) in
      match bundle_ with
      | Some _ => ret tt
      | None => throw (runtime_error no_longer_valid)
      end
  end.

Definition GetProperty (this : BundleContext) (key : string) : M Any :=
  let* _ := enter this in
  let* props := gets (λ w, frameworkProperties (core w)) in
  ret (match props !! key with
       | None => Any_empty
       | Some v => v
       end).

Definition GetProperties (this : BundleContext) : M AnyMap :=
  let* _ := enter this in
  gets (λ w, frameworkProperties (core w)).

Definition GetBundle (this : BundleContext) : M Bundle :=
  let* '(_, (b, _)) := enter this in
  ret (MakeBundle (Some b)).

Definition GetBundle_id (this : BundleContext) (id : Z) : M Bundle :=
  let* _ := enter this in
  let* found := call (bundleRegistry_GetBundle id) in
  call (bundleHooks_FilterBundle this (MakeBundle found)).

Definition GetBundles_location (this : BundleContext) (location : string) : M (list Bundle) :=
  let* _ := enter this in
  let* found := call (bundleRegistry_GetBundles_location location) in
  ret (MakeBundle <$> found).

Definition GetBundles (this : BundleContext) : M (list Bundle) :=
  let* _ := enter this in
  let* found := call bundleRegistry_GetBundles in
  call (bundleHooks_FilterBundles this (MakeBundle <$> found)).

Definition RegisterService (this : BundleContext) (service : InterfaceMapConstPtr)
    (properties : AnyMap) : M ServiceRegistrationU :=
  let* '(_, (b, _)) := enter this in
  call (services_RegisterService (Some b) service properties).

Definition GetServiceReferences (this : BundleContext) (clazz filter : string)
  : M (list ServiceReferenceU) :=
  let* '(_, (b, _)) := enter this in
  call (services_Get_filter clazz filter (Some b)).

Definition GetServiceReference (this : BundleContext) (clazz : string) : M ServiceReferenceU :=
  let* '(_, (b, _)) := enter this in
  call (services_Get (Some b) clazz).

(** [GetService(const ServiceReferenceBase&)] *)
Definition GetService (this : BundleContext) (reference : ServiceReferenceBase)
  : M (shared_ptr (option addr)) :=
  let* reference_ok := gets (ServiceReference_bool reference) in
  if negb reference_ok
  then throw (invalid_argument default_reference)
  else
    let* '(_, (b, _)) := enter this in
    let* service := call (reference_GetService reference (Some b)) in
    let* h := make_shared (ServiceHolder_void (Some b) reference service) in
    ret {| owner := Some h; get := service |}.

(** [GetService(const ServiceReferenceU&)] *)
Definition GetService_U (this : BundleContext) (reference : ServiceReferenceU)
  : M (shared_ptr InterfaceMapConstPtr) :=
  let* reference_ok := gets (ServiceReference_bool reference) in
  if negb reference_ok
  then throw (invalid_argument default_reference)
  else
    let* '(_, (b, _)) := enter this in
    let* serviceInterfaceMap := call (reference_GetServiceInterfaceMap reference (Some b)) in
    let* h := make_shared (ServiceHolder_map (Some b) reference serviceInterfaceMap) in
    ret {| owner := Some h; get := serviceInterfaceMap |}.

Definition AddServiceListener (this : BundleContext) (delegate : ServiceListener)
    (filter : string) : M ListenerToken :=
  let* '(p, _) := enter this in
  call (listeners_AddServiceListener p delegate None filter).

Definition RemoveServiceListener (this : BundleContext) (delegate : ServiceListener)
  : M unit :=
  let* '(p, _) := enter this in
  call (listeners_RemoveServiceListener p 0%N delegate None).

Definition AddBundleListener (this : BundleContext) (delegate : BundleListener)
  : M ListenerToken :=
  let* '(p, _) := enter this in
  call (listeners_AddBundleListener p delegate None).

Definition RemoveBundleListener (this : BundleContext) (delegate : BundleListener)
  : M unit :=
  let* '(p, _) := enter this in
  call (listeners_RemoveBundleListener p delegate None).

Definition AddFrameworkListener (this : BundleContext) (listener : FrameworkListener)
  : M ListenerToken :=
  let* '(p, _) := enter this in
  call (listeners_AddFrameworkListener p listener None).

Definition RemoveFrameworkListener (this : BundleContext) (listener : FrameworkListener)
  : M unit :=
  let* '(p, _) := enter this in
  call (listeners_RemoveFrameworkListener p listener None).

Definition AddServiceListener_data (this : BundleContext) (delegate : ServiceListener)
    (data : option addr) (filter : string) : M ListenerToken :=
  let* '(p, _) := enter this in
  call (listeners_AddServiceListener p delegate data filter).

Definition RemoveServiceListener_data (this : BundleContext) (delegate : ServiceListener)
    (data : option addr) : M unit :=
  let* '(p, _) := enter this in
  call (listeners_RemoveServiceListener p 0%N delegate data).

Definition AddBundleListener_data (this : BundleContext) (delegate : BundleListener)
    (data : option addr) : M ListenerToken :=
  let* '(p, _) := enter this in
  call (listeners_AddBundleListener p delegate data).

Definition RemoveBundleListener_data (this : BundleContext) (delegate : BundleListener)
    (data : option addr) : M unit :=
  let* '(p, _) := enter this in
  call (listeners_RemoveBundleListener p delegate data).

Definition RemoveListener (this : BundleContext) (token : ListenerToken) : M unit :=
  let* '(p, _) := enter this in
  call (listeners_RemoveListener p token).

Definition GetDataFile (this : BundleContext) (filename : string) : M string :=
  let* '(_, (_, b)) := enter this in
  let dataRoot := bundleDir b in
  if negb (bool_decide (dataRoot = ""))
  then
    let* found := gets (Exists dataRoot) in
    (if negb found then MakePath dataRoot else ret tt) ;;
    ret (dataRoot +:+ DIR_SEP +:+ filename)
  else ret "".

Definition InstallBundles (this : BundleContext) (location : string)
    (bundleManifest : AnyMap) : M (list Bundle) :=
  let* '(_, (b, _)) := enter this in
  call (bundleRegistry_Install location (Some b) bundleManifest).
End Impl.
End BundleContext.

(** ** [ServiceObjects.cpp] *)

Record ServiceObjectsBasePrivate : Type := {
  m_context : option addr;
  m_reference : ServiceReferenceBase;
}.

Module ServiceObjectsBase.
Section Impl.
Context {Core : Type} `{!CoreBundleContext Core}.
Local Abbreviation M := (@M Core).

(** [ServiceObjectsBasePrivate::GetServiceInterfaceMap] *)
Definition Private_GetServiceInterfaceMap (this : ServiceObjectsBasePrivate)
  : M InterfaceMapConstPtr :=
  let* scope := gets (λ w, reference_scope (m_reference this) (core w)) in
  let isPrototypeScope := bool_decide (scope = SCOPE_PROTOTYPE) in
  if isPrototypeScope
  then
    let* bundle := BundleContext.GetBundle (MakeBundleContext (m_context this)) in
    call (reference_GetPrototypeService (m_reference this) bundle)
  else
    let* bundle := BundleContext.GetBundle (MakeBundleContext (m_context this)) in
    call (reference_GetServiceInterfaceMap (m_reference this) (GetPrivate bundle)).

(** The constructor: the object is its private part. *)
Definition constructor (context : option addr) (reference : ServiceReferenceBase)
  : M ServiceObjectsBasePrivate :=
  let* reference_ok := gets (ServiceReference_bool reference) in
  if negb reference_ok
  then throw (invalid_argument "The service reference is invalid")
  else ret {| m_context := context; m_reference := reference |}.

(** [d->m_context->bundle.lock()].  The read is reached only after
    [GetBundle] succeeded on [m_context], so the pointer is not null there. *)
Definition context_lock (this : ServiceObjectsBasePrivate) (w : World Core)
  : option (addr * BundlePrivate) :=
  match m_context this with
  | Some p => lock (BundleContext.context_bundle p w) w
  | None => None
  end.

(** [GetService].  The stored pointer is
    [interfaceMap->find(GetInterfaceId())->second.get()].  The source does
    not test the iterator: on a map that has no entry for the interface id it
    reads through [end()], which the language leaves undefined, and the
    outcome is [Undefined]. *)
Definition GetService (this : ServiceObjectsBasePrivate)
  : M (outcome (shared_ptr (option addr))) :=
  let* reference_ok := gets (ServiceReference_bool (m_reference this)) in
  if negb reference_ok
  then ret (Value nullptr)
  else
    let* interfaceMap := Private_GetServiceInterfaceMap this in
    match interfaceMap with
    | None => ret (Value nullptr)
    | Some im =>
        let* bundle_ := gets (context_lock this) in
        match bundle_ with
        | None => ret (Value nullptr)
        | Some (b, _) =>
            let* h := make_shared (UngetHelper interfaceMap (m_reference this) (Some b)) in
            match im !! GetInterfaceId (m_reference this) with
            | Some service => ret (Value {| owner := Some h; get := Some service |})
            | None => ret Undefined
            end
        end
    end.

(** [GetServiceInterfaceMap].  [result] is a copy of the map: as contents,
    the same map. *)
Definition GetServiceInterfaceMap (this : ServiceObjectsBasePrivate)
  : M (shared_ptr InterfaceMapConstPtr) :=
  let* reference_ok := gets (ServiceReference_bool (m_reference this)) in
  if negb reference_ok
  then ret nullptr
  else
    let* interfaceMap := Private_GetServiceInterfaceMap this in
    match interfaceMap with
    | None => ret nullptr
    | Some im =>
        let result : InterfaceMapConstPtr := Some im in
        let* bundle_ := gets (context_lock this) in
        match bundle_ with
        | None => ret nullptr
        | Some (b, _) =>
            let* h := make_shared (UngetHelper result (m_reference this) (Some b)) in
            ret {| owner := Some h; get := result |}
        end
    end.

Definition GetReference (this : ServiceObjectsBasePrivate) : ServiceReferenceBase :=
  m_reference this.
End Impl.
End ServiceObjectsBase.

(** [ServiceObjects<void>] *)
Module ServiceObjects_void.
Section Impl.
Context {Core : Type} `{!CoreBundleContext Core}.

Definition GetService (this : ServiceObjectsBasePrivate)
  : @M Core (shared_ptr InterfaceMapConstPtr) :=
  ServiceObjectsBase.GetServiceInterfaceMap this.

Definition GetServiceReference (this : ServiceObjectsBasePrivate) : ServiceReferenceU :=
  ServiceObjectsBase.GetReference this.
End Impl.
End ServiceObjects_void.

(** ** Callers

    What a client can do with a context and with the handles it gets back. *)

(** One public member function of [BundleContext] applied to its arguments. *)
Inductive Operation : Type :=
| op_GetLogSink
| op_GetProperty (key : string)
| op_GetProperties
| op_GetBundle
| op_GetBundle_id (id : Z)
| op_GetBundles_location (location : string)
| op_GetBundles
| op_RegisterService (service : InterfaceMapConstPtr) (properties : AnyMap)
| op_GetServiceReferences (clazz filter : string)
| op_GetServiceReference (clazz : string)
| op_GetService (reference : ServiceReferenceBase)
| op_GetService_U (reference : ServiceReferenceU)
| op_AddServiceListener (delegate : ServiceListener) (filter : string)
| op_RemoveServiceListener (delegate : ServiceListener)
| op_AddBundleListener (delegate : BundleListener)
| op_RemoveBundleListener (delegate : BundleListener)
| op_AddFrameworkListener (listener : FrameworkListener)
| op_RemoveFrameworkListener (listener : FrameworkListener)
| op_AddServiceListener_data (delegate : ServiceListener) (data : option addr) (filter : string)
| op_RemoveServiceListener_data (delegate : ServiceListener) (data : option addr)
| op_AddBundleListener_data (delegate : BundleListener) (data : option addr)
| op_RemoveBundleListener_data (delegate : BundleListener) (data : option addr)
| op_RemoveListener (token : ListenerToken)
| op_GetDataFile (filename : string)
| op_InstallBundles (location : string) (bundleManifest : AnyMap).

(** The reference an operation receives, when it receives one. *)
Definition reference_argument (op : Operation) : option ServiceReferenceBase :=
  match op with
  | op_GetService r | op_GetService_U r => Some r
  | _ => None
  end.

(** What a client does with one handle. *)
Inductive HandleOp : Type := Copy | Drop.

(** The use count after a run of copies and drops that starts from [n]
    owners; [None] when the run touches the handle after its last owner is
    gone. *)
Fixpoint count_after (n : nat) (ops : list HandleOp) : option nat :=
  match ops with
  | [] => Some n
  | Copy :: rest => match n with 0 => None | S _ => count_after (S n) rest end
  | Drop :: rest => match n with 0 => None | S n' => count_after n' rest end
  end.

Section Callers.
Context {Core : Type} `{!CoreBundleContext Core}.
Local Abbreviation M := (@M Core).
Variable DIR_SEP : string.

(** The call, with its return value dropped. *)
Definition discard {A} (m : M A) : M unit := let* _ := m in ret tt.

Definition run (op : Operation) (this : BundleContext) : M unit :=
  match op with
  | op_GetLogSink => BundleContext.GetLogSink this
  | op_GetProperty key => discard (BundleContext.GetProperty this key)
  | op_GetProperties => discard (BundleContext.GetProperties this)
  | op_GetBundle => discard (BundleContext.GetBundle this)
  | op_GetBundle_id id => discard (BundleContext.GetBundle_id this id)
  | op_GetBundles_location location => discard (BundleContext.GetBundles_location this location)
  | op_GetBundles => discard (BundleContext.GetBundles this)
  | op_RegisterService service properties =>
      discard (BundleContext.RegisterService this service properties)
  | op_GetServiceReferences clazz filter =>
      discard (BundleContext.GetServiceReferences this clazz filter)
  | op_GetServiceReference clazz => discard (BundleContext.GetServiceReference this clazz)
  | op_GetService reference => discard (BundleContext.GetService this reference)
  | op_GetService_U reference => discard (BundleContext.GetService_U this reference)
  | op_AddServiceListener delegate filter =>
      discard (BundleContext.AddServiceListener this delegate filter)
  | op_RemoveServiceListener delegate => BundleContext.RemoveServiceListener this delegate
  | op_AddBundleListener delegate => discard (BundleContext.AddBundleListener this delegate)
  | op_RemoveBundleListener delegate => BundleContext.RemoveBundleListener this delegate
  | op_AddFrameworkListener listener =>
      discard (BundleContext.AddFrameworkListener this listener)
  | op_RemoveFrameworkListener listener => BundleContext.RemoveFrameworkListener this listener
  | op_AddServiceListener_data delegate data filter =>
      discard (BundleContext.AddServiceListener_data this delegate data filter)
  | op_RemoveServiceListener_data delegate data =>
      BundleContext.RemoveServiceListener_data this delegate data
  | op_AddBundleListener_data delegate data =>
      discard (BundleContext.AddBundleListener_data this delegate data)
  | op_RemoveBundleListener_data delegate data =>
      BundleContext.RemoveBundleListener_data this delegate data
  | op_RemoveListener token => BundleContext.RemoveListener this token
  | op_GetDataFile filename => discard (BundleContext.GetDataFile DIR_SEP this filename)
  | op_InstallBundles location bundleManifest =>
      discard (BundleContext.InstallBundles this location bundleManifest)
  end.

Definition handle_step (h : addr) (op : HandleOp) : M unit :=
  match op with
  | Copy => copy h
  | Drop => release h
  end.

Fixpoint handle_run (h : addr) (ops : list HandleOp) : M unit :=
  match ops with
  | [] => ret tt
  | op :: rest => handle_step h op ;; handle_run h rest
  end.

(** The private part of the bundle a holder was created for. *)
Definition holder_bundle (h : Holder) : weak_ptr :=
  match h with
  | ServiceHolder_void b _ _ | ServiceHolder_map b _ _ | UngetHelper _ _ b => b
  end.

(** The [try] block of a holder's destructor, and the text its [catch]
    block puts before the exception's description. *)
Definition holder_try_block (h : Holder) : M unit :=
  match h with
  | ServiceHolder_void b sref _ | ServiceHolder_map b sref _ => ServiceHolder.try_block b sref
  | UngetHelper interfaceMap sref b => UngetHelper.try_block interfaceMap sref b
  end.

Definition holder_log_prefix (h : Holder) : string :=
  match h with
  | ServiceHolder_void _ _ _ | ServiceHolder_map _ _ _ => "UngetService threw an exception. "
  | UngetHelper _ _ _ => "UngetHelper threw an exception. "
  end.

(** The calls that destroying a holder makes in store [w]. *)
Definition unget_calls (h : Holder) (w : World Core) : list Event :=
  match h with
  | ServiceHolder_void b sref _ | ServiceHolder_map b sref _ =>
      [event (reference_UngetService sref (fst <$> lock b w) true)]
  | UngetHelper interfaceMap sref b =>
      if ServiceReference_bool sref w
      then
        if bool_decide (reference_scope sref (core w) = SCOPE_PROTOTYPE)
        then [event (reference_UngetPrototypeService sref (fst <$> lock b w) interfaceMap)]
        else [event (reference_UngetService sref (fst <$> lock b w) true)]
      else []
  end.

(** Stores that hold the same objects: they differ at most in the core's
    state, the trace and the log. *)
Definition same_objects (w w' : World Core) : Prop :=
  contexts w' = contexts w ∧ bundles w' = bundles w
  ∧ directories w' = directories w ∧ holders w' = holders w.

(** A context a member function can work with: not null, valid, and its
    bundle alive. *)
Definition usable (this : BundleContext) (w : World Core) : option (addr * BundlePrivate) :=
  match d this with
  | None => None
  | Some p => if BundleContext.IsValid p w then lock (BundleContext.context_bundle p w) w else None
  end.
End Callers.

(** A context that is no longer valid: default constructed (or assigned
    [nullptr]), or invalidated. *)
Inductive NoLongerValid {Core : Type} (w : World Core) : BundleContext → Prop :=
| nlv_default : NoLongerValid w (MakeBundleContext None)
| nlv_invalidated (p : addr) :
    BundleContext.IsValid p w = false → NoLongerValid w (MakeBundleContext (Some p)).

(** ** A small framework to run the code against

    A registry with a list of installed bundles, one registration that may
    be gone ([available]) or may have no instance to give ([instance]),
    bundle hooks that hide every bundle, and a switch that makes unget
    raise. *)
Module Fixture.
Record State : Type := {
  installed : list (addr * string);
  available : bool;
  instance : bool;
  scope : string;
  unget_raises : bool;
}.

Definition the_service : addr := 7%positive.
Definition the_map : InterfaceMap := {[ "Greeter" := the_service ]}.

Definition step (R : Type) (c : CoreCall R) (s : State) : result R * State :=
  match c in CoreCall R return result R * State with
  | bundleRegistry_GetBundle id =>
      (Ok (fst <$> head (filter (λ bl, bool_decide (Zpos (fst bl) = id)) (installed s))), s)
  | bundleRegistry_GetBundles_location location =>
      (Ok ((λ bl, Some (fst bl)) <$> filter (λ bl, bool_decide (snd bl = location)) (installed s)), s)
  | bundleRegistry_GetBundles => (Ok ((λ bl, Some (fst bl)) <$> installed s), s)
  | bundleRegistry_Install _ _ _ => (Ok [], s)
  | bundleHooks_FilterBundle _ _ => (Ok (MakeBundle None), s)
  | bundleHooks_FilterBundles _ _ => (Ok [], s)
  | services_RegisterService _ _ _ => (Ok {| registered := None |}, s)
  | services_Get_filter _ _ _ => (Ok [], s)
  | services_Get _ _ => (Ok ServiceReference_default, s)
  | listeners_AddServiceListener _ _ _ _ => (Ok {| token_id := 0%N |}, s)
  | listeners_RemoveServiceListener _ _ _ _ => (Ok tt, s)
  | listeners_AddBundleListener _ _ _ => (Ok {| token_id := 0%N |}, s)
  | listeners_RemoveBundleListener _ _ _ => (Ok tt, s)
  | listeners_AddFrameworkListener _ _ _ => (Ok {| token_id := 0%N |}, s)
  | listeners_RemoveFrameworkListener _ _ _ => (Ok tt, s)
  | listeners_RemoveListener _ _ => (Ok tt, s)
  | reference_GetService _ _ =>
      (Ok (if instance s then Some the_service else None), s)
  | reference_GetServiceInterfaceMap _ _ =>
      (Ok (if instance s then Some the_map else None), s)
  | reference_GetPrototypeService _ _ =>
      (Ok (if instance s then Some the_map else None), s)
  | reference_UngetService _ _ _ =>
      (if unget_raises s then Throw (other_exception "unget failed") else Ok true, s)
  | reference_UngetPrototypeService _ _ _ =>
      (if unget_raises s then Throw (other_exception "unget failed") else Ok true, s)
  end.

#[global] Instance framework : CoreBundleContext State := {|
  core_step := step;
  frameworkProperties := λ _, ∅;
  reference_bool := λ _ s, available s;
  reference_scope := λ _ s, scope s;
|}.

Definition registry (sc : string) (avail raises : bool) : State :=
  {| installed := [(1%positive, "file:///bundles/a"); (2%positive, "file:///bundles/b")];
     available := avail; instance := avail; scope := sc; unget_raises := raises |}.

(** The registration is live, and its factory produces nothing. *)
Definition failing_factory : State :=
  {| installed := [(1%positive, "file:///bundles/a")];
     available := true; instance := false; scope := "prototype"; unget_raises := false |}.

(** Bundle 1 is started and owns context 10; context 11 has been
    invalidated; bundle 1 keeps its data under [/data/1]. *)
Definition world (s : State) : World State :=
  {| contexts := {[ 10%positive := {| bundle := Some 1%positive; valid := true |};
                    11%positive := {| bundle := Some 1%positive; valid := false |} ]};
     bundles := {[ 1%positive := {| bundleDir := "/data/1" |};
                   2%positive := {| bundleDir := "" |} ]};
     core := s;
     directories := ∅;
     sink := [];
     trace := [];
     holders := ∅ |}.

Definition started : BundleContext := MakeBundleContext (Some 10%positive).
Definition stopped : BundleContext := MakeBundleContext (Some 11%positive).
Definition greeter : ServiceReferenceBase :=
  {| registration := Some 5%positive; GetInterfaceId := "Greeter" |}.

(** The service objects of [greeter] for the started context. *)
Definition objects : ServiceObjectsBasePrivate :=
  {| m_context := Some 10%positive; m_reference := greeter |}.
End Fixture.

(** ** [TestBundleDSCA05/src/ServiceImpl.cpp] *)

Module ServiceComponentCA05.

(** [properties] is a [shared_ptr<AnyMap>]. *)
Record State : Type := { properties : option AnyMap }.

(** [Modified]; the component context is not looked at. *)
Definition Modified (context : option addr) (configuration : option AnyMap) (s : State)
  : State :=
  {| properties := configuration |}.

(** [GetProperties] returns [*properties]; the source does not test the
    pointer, and there is no answer ([None]) when it is null. *)
Definition GetProperties (s : State) : option AnyMap := properties s.

(** A run of [Modified] calls, each with its context and configuration. *)
Definition run (calls : list (option addr * option AnyMap)) (s : State) : State :=
  foldl (λ s c, Modified (fst c) (snd c) s) s calls.

End ServiceComponentCA05.

(** ** [TestBundleMultipleManagedServiceFactory/src/ManagedServiceFactoryImpl4.cpp] *)

Module TestManagedServiceFactoryImpl4.

(** The two call counters are maps from pid to [int]. *)
Record State : Type := {
  bundleContext_ : BundleContext;
  m_updatedCallCount : gmap string Z;
  m_removedCallCount : gmap string Z;
}.

(** A newly constructed factory. *)
Definition new : State :=
  {| bundleContext_ := MakeBundleContext None;
     m_updatedCallCount := ∅;
     m_removedCallCount := ∅ |}.

Definition INT_MAX : Z := 2147483647.

(** [int] arithmetic: the result, brought back into 32 bits.  (Overflow of a
    signed [int] is undefined in the source language; the statements about
    counters keep them below [INT_MAX].) *)
Definition int_wrap (z : Z) : Z := ((z + 2147483648) `mod` 4294967296 - 2147483648)%Z.

(** [m[pid]]: a missing key is inserted with the value 0. *)
Definition subscript (m : gmap string Z) (pid : string) : Z * gmap string Z :=
  match m !! pid with
  | Some n => (n, m)
  | None => (0%Z, <[pid := 0%Z]> m)
  end.

(** [m.at(config)]: a missing key raises [std::out_of_range]. *)
Definition at_ (m : gmap string Z) (config : string) : result Z :=
  match m !! config with
  | Some n => Ok n
  | None => Throw (other_exception "out_of_range")
  end.

(** The service that [create] makes, by the argument of its constructor. *)
Record TestManagedServiceFactoryServiceImpl4 : Type := make_shared_Impl4 { initial : Z }.

(** [Activate]: [context->GetBundleContext()] is passed in. *)
Definition Activate (GetBundleContext : BundleContext) (s : State) : State :=
  {| bundleContext_ := GetBundleContext;
     m_updatedCallCount := m_updatedCallCount s;
     m_removedCallCount := m_removedCallCount s |}.

(** [Updated]: [m_updatedCallCount[pid] += 1]. *)
Definition Updated (pid : string) (props : AnyMap) (s : State) : State :=
  let '(n, m) := subscript (m_updatedCallCount s) pid in
  {| bundleContext_ := bundleContext_ s;
     m_updatedCallCount := <[pid := int_wrap (n + 1)]> m;
     m_removedCallCount := m_removedCallCount s |}.

(** [Removed]: [++m_removedCallCount[pid]]. *)
Definition Removed (pid : string) (s : State) : State :=
  let '(n, m) := subscript (m_removedCallCount s) pid in
  {| bundleContext_ := bundleContext_ s;
     m_updatedCallCount := m_updatedCallCount s;
     m_removedCallCount := <[pid := int_wrap (n + 1)]> m |}.

(** [getUpdatedCounter]: [return m_updatedCallCount[pid]]. *)
Definition getUpdatedCounter (pid : string) (s : State) : Z * State :=
  let '(n, m) := subscript (m_updatedCallCount s) pid in
  (n, {| bundleContext_ := bundleContext_ s;
         m_updatedCallCount := m;
         m_removedCallCount := m_removedCallCount s |}).

(** [getRemovedCounter]: [return m_removedCallCount[pid]]. *)
Definition getRemovedCounter (pid : string) (s : State) : Z * State :=
  let '(n, m) := subscript (m_removedCallCount s) pid in
  (n, {| bundleContext_ := bundleContext_ s;
         m_updatedCallCount := m_updatedCallCount s;
         m_removedCallCount := m |}).

(** [create]: the [try] block constructs the service from
    [m_updatedCallCount.at(config)]; [catch (...)] returns [nullptr]. *)
Definition create (config : string) (s : State)
  : option TestManagedServiceFactoryServiceImpl4 :=
  match at_ (m_updatedCallCount s) config with
  | Ok n => Some (make_shared_Impl4 n)
  | Throw _ => None
  end.

(** One call made on the factory, and a run of such calls. *)
Inductive Call : Type :=
| call_Activate (GetBundleContext : BundleContext)
| call_Updated (pid : string) (props : AnyMap)
| call_Removed (pid : string)
| call_getUpdatedCounter (pid : string)
| call_getRemovedCounter (pid : string)
| call_create (config : string).

Definition step (c : Call) (s : State) : State :=
  match c with
  | call_Activate ctx => Activate ctx s
  | call_Updated pid props => Updated pid props s
  | call_Removed pid => Removed pid s
  | call_getUpdatedCounter pid => snd (getUpdatedCounter pid s)
  | call_getRemovedCounter pid => snd (getRemovedCounter pid s)
  | call_create _ => s
  end.

Definition run (calls : list Call) (s : State) : State := foldl (λ s c, step c s) s calls.

(** The calls that are [Updated(pid, _)], those that are [Removed(pid)], and
    those that read or write the updated counter of [pid]. *)
Definition is_Updated (pid : string) (c : Call) : bool :=
  match c with
  | call_Updated p _ => bool_decide (p = pid)
  | _ => false
  end.

Definition is_Removed (pid : string) (c : Call) : bool :=
  match c with
  | call_Removed p => bool_decide (p = pid)
  | _ => false
  end.

Definition touches_updated (pid : string) (c : Call) : bool :=
  match c with
  | call_Updated p _ | call_getUpdatedCounter p => bool_decide (p = pid)
  | _ => false
  end.

(** How many of the calls are [Updated(pid, _)], and how many [Removed(pid)]. *)
Definition updates (pid : string) (calls : list Call) : nat :=
  length (filter (λ c, is_Updated pid c = true) calls).

Definition removals (pid : string) (calls : list Call) : nat :=
  length (filter (λ c, is_Removed pid c = true) calls).

(** Whether one of the calls is [Updated(config, _)] or
    [getUpdatedCounter(config)]. *)
Definition seen (config : string) (calls : list Call) : bool :=
  existsb (touches_updated config) calls.

End TestManagedServiceFactoryImpl4.

(** ** More stores to run the code against *)

Module Scenario.

(** Context 12 is still marked valid, and its bundle 3 is gone. *)
Definition orphaned_world : World Fixture.State :=
  set_contexts
    (<[12%positive := {| bundle := Some 3%positive; valid := true |}]>
       (contexts (Fixture.world (Fixture.registry "singleton" true false))))
    (Fixture.world (Fixture.registry "singleton" true false)).

Definition orphaned : BundleContext := MakeBundleContext (Some 12%positive).

(** The service objects of [Fixture.greeter] for the invalidated context. *)
Definition stopped_objects : ServiceObjectsBasePrivate :=
  {| m_context := Some 11%positive; m_reference := Fixture.greeter |}.

(** A registry whose every call raises. *)
Definition raising_step (R : Type) (c : CoreCall R) (s : unit) : result R * unit :=
  (Throw (other_exception "registry failure"), s).

Definition raising : CoreBundleContext unit := {|
  core_step := raising_step;
  frameworkProperties := λ _, ∅;
  reference_bool := λ _ _, true;
  reference_scope := λ _ _, "singleton";
|}.

Definition raising_world : World unit :=
  {| contexts := {[ 10%positive := {| bundle := Some 1%positive; valid := true |} ]};
     bundles := {[ 1%positive := {| bundleDir := "/data/1" |} ]};
     core := tt;
     directories := ∅;
     sink := [];
     trace := [];
     holders := ∅ |}.

End Scenario.

(** ** The monad's equations *)

Section MonadFacts.
Context {Core : Type}.
Implicit Types w : World Core.

Lemma bind_ok {A B} (m : M A) (k : A → M B) w a w' :
  m w = (Ok a, w') → bind m k w = k a w'.
Proof. unfold bind. by intros ->. Qed.

Lemma bind_throw {A B} (m : M A) (k : A → M B) w e w' :
  m w = (Throw e, w') → bind m k w = (Throw e, w').
Proof. unfold bind. by intros ->. Qed.

Lemma bind_gets {A B} (f : World Core → A) (k : A → M B) w :
  bind (gets f) k w = k (f w) w.
Proof. reflexivity. Qed.

End MonadFacts.

(** ** Validity of a context *)

Section ContextFacts.
Context {Core : Type} `{!CoreBundleContext Core}.
Implicit Types (w : World Core) (this : BundleContext).

Lemma to_bool_no_longer_valid w this :
  BundleContext.to_bool this w = false ↔ NoLongerValid w this.
Proof.
  destruct this as [[p|]]; unfold BundleContext.to_bool; simpl; split.
  - by constructor.
  - by inversion 1.
  - constructor.
  - done.
Qed.

Lemma Invalidate_no_longer_valid w p :
  NoLongerValid (BundleContext.Invalidate p w) (MakeBundleContext (Some p)).
Proof.
  constructor. unfold BundleContext.IsValid, BundleContext.Invalidate. simpl.
  rewrite lookup_alter_eq. by destruct (contexts w !! p).
Qed.

Lemma enter_no_longer_valid w this :
  NoLongerValid w this →
  BundleContext.enter this w = (Throw (runtime_error BundleContext.no_longer_valid), w).
Proof.
  intros [|p Hp]; [done|].
  unfold BundleContext.enter; simpl.
  apply bind_throw. unfold BundleContext.CheckValid. by rewrite Hp.
Qed.

Lemma enter_usable w this b bp :
  usable this w = Some (b, bp) →
  ∃ p, d this = Some p ∧ BundleContext.enter this w = (Ok (p, (b, bp)), w).
Proof.
  unfold usable, BundleContext.enter. destruct (d this) as [p|]; [|done].
  intros H. exists p. split; [done|].
  unfold bind at 1, BundleContext.CheckValid.
  destruct (BundleContext.IsValid p w); [|done].
  unfold bind, BundleContext.GetAndCheckBundlePrivate. by rewrite H.
Qed.
End ContextFacts.

(** ** Rejected calls *)

Section Rejection.
Context {Core : Type} `{!CoreBundleContext Core}.
Implicit Types (w : World Core) (this : BundleContext).

(** C3.  Whatever the context, both overloads of [GetService] answer a
    default-constructed reference with [std::invalid_argument], and leave
    the store as it was. *)
Theorem GetService_default_reference w this (interfaceId : string) :
  BundleContext.GetService this
    {| registration := None; GetInterfaceId := interfaceId |} w
  = (Throw (invalid_argument BundleContext.default_reference), w)
  ∧ BundleContext.GetService_U this
      {| registration := None; GetInterfaceId := interfaceId |} w
    = (Throw (invalid_argument BundleContext.default_reference), w).
Proof. split; reflexivity. Qed.

(** C1, amended.  On a context that is default constructed or invalidated,
    every public member function raises [std::runtime_error] with the text
    "The bundle context is no longer valid" and leaves the store untouched:
    no collaborator is called, nothing is logged, no holder is allocated.
    For the two [GetService] overloads this needs a reference that converts
    to [true]: the reference is tested before the context. *)
Theorem no_longer_valid_context_rejects (DIR_SEP : string) w this op :
  NoLongerValid w this →
  (∀ r, reference_argument op = Some r → ServiceReference_bool r w = true) →
  run DIR_SEP op this w = (Throw (runtime_error BundleContext.no_longer_valid), w).
Proof.
  intros Hthis Href.
  pose proof (enter_no_longer_valid w this Hthis) as Henter.
  destruct op; simpl in Href; unfold run, discard;
    try (by repeat first [ exact Henter | apply bind_throw ]).
  - destruct Hthis as [|p Hp]; [done|]. unfold BundleContext.GetLogSink; simpl.
    apply bind_throw. unfold BundleContext.CheckValid. by rewrite Hp.
  - apply bind_throw. unfold BundleContext.GetService.
    rewrite bind_gets, (Href reference eq_refl). simpl.
    by apply bind_throw.
  - apply bind_throw. unfold BundleContext.GetService_U.
    rewrite bind_gets, (Href reference eq_refl). simpl.
    by apply bind_throw.
Qed.
End Rejection.

(** A run of the amended C1: the fixture's started context is invalidated,
    and [GetService] on it with a live reference is rejected. *)
Lemma no_longer_valid_context_rejects_witness :
  run "/" (op_GetService Fixture.greeter) Fixture.started
    (BundleContext.Invalidate 10%positive
       (Fixture.world (Fixture.registry "singleton" true false)))
  = (Throw (runtime_error BundleContext.no_longer_valid),
     BundleContext.Invalidate 10%positive
       (Fixture.world (Fixture.registry "singleton" true false))).
Proof.
  apply no_longer_valid_context_rejects.
  - apply Invalidate_no_longer_valid.
  - intros r [= <-]. reflexivity.
Defined.

(** C1 as stated fails: a default-constructed context given a
    default-constructed reference raises [std::invalid_argument], not the
    "no longer valid" error. *)
Lemma no_longer_valid_context_invalid_argument :
  NoLongerValid (Fixture.world (Fixture.registry "singleton" true false))
    BundleContext.default_constructed
  ∧ fst (run "/" (op_GetService ServiceReference_default) BundleContext.default_constructed
           (Fixture.world (Fixture.registry "singleton" true false)))
    = Throw (invalid_argument BundleContext.default_reference)
  ∧ fst (run "/" (op_GetService_U ServiceReference_default) BundleContext.default_constructed
           (Fixture.world (Fixture.registry "singleton" true false)))
    = Throw (invalid_argument BundleContext.default_reference).
Proof. split; [constructor | split; reflexivity]. Qed.

(** ** Comparison of contexts *)

Section Comparison.
Context {Core : Type} `{!CoreBundleContext Core}.
Implicit Types (w : World Core) (a b c : BundleContext).

Lemma eq_spec w a b :
  BundleContext.eq a b w = true ↔
  (BundleContext.to_bool a w = false ∧ BundleContext.to_bool b w = false)
  ∨ (BundleContext.to_bool a w = true ∧ BundleContext.to_bool b w = true ∧ d a = d b).
Proof.
  unfold BundleContext.eq, ptr_eqb.
  destruct (BundleContext.to_bool a w), (BundleContext.to_bool b w); simpl;
    rewrite ?bool_decide_eq_true; naive_solver.
Qed.

(** C10, amended.  In any one store, [operator==] is an equivalence
    relation; two contexts are equal iff both convert to [false] or both
    convert to [true] and hold the same [d]; [operator!=] is its negation;
    and under [operator<] every valid context comes strictly before every
    invalid one, while an invalid context comes before nothing. *)
Theorem context_comparison w :
  Equivalence (λ a b, BundleContext.eq a b w = true)
  ∧ (∀ a b, BundleContext.eq a b w = true ↔
       (BundleContext.to_bool a w = false ∧ BundleContext.to_bool b w = false)
       ∨ (BundleContext.to_bool a w = true ∧ BundleContext.to_bool b w = true ∧ d a = d b))
  ∧ (∀ a b, BundleContext.ne a b w = negb (BundleContext.eq a b w))
  ∧ (∀ a b, BundleContext.to_bool a w = true → BundleContext.to_bool b w = false →
       BundleContext.lt a b w = true ∧ BundleContext.lt b a w = false)
  ∧ (∀ a b, BundleContext.to_bool a w = false → BundleContext.lt a b w = false).
Proof.
  split; [|split; [|split; [|split]]].
  - split.
    + intros a. apply eq_spec. destruct (BundleContext.to_bool a w); naive_solver.
    + intros a b. rewrite !eq_spec. naive_solver.
    + intros a b c. rewrite !eq_spec. naive_solver congruence.
  - apply eq_spec.
  - done.
  - intros a b Ha Hb. unfold BundleContext.lt. by rewrite Ha, Hb.
  - intros a b Ha. unfold BundleContext.lt. by rewrite Ha.
Qed.
End Comparison.

(** A run of the amended C10 on the fixture: the started context comes
    before the invalidated one, not after it. *)
Lemma context_comparison_witness :
  BundleContext.lt Fixture.started Fixture.stopped
    (Fixture.world (Fixture.registry "singleton" true false)) = true
  ∧ BundleContext.lt Fixture.stopped Fixture.started
      (Fixture.world (Fixture.registry "singleton" true false)) = false.
Proof.
  apply (context_comparison (Fixture.world (Fixture.registry "singleton" true false)));
    reflexivity.
Defined.

(** C10 as stated fails in its last part: the invalid context is not
    ordered before the valid one. *)
Lemma invalid_context_not_before_valid :
  BundleContext.to_bool BundleContext.default_constructed
    (Fixture.world (Fixture.registry "singleton" true false)) = false
  ∧ BundleContext.to_bool Fixture.started
      (Fixture.world (Fixture.registry "singleton" true false)) = true
  ∧ BundleContext.lt BundleContext.default_constructed Fixture.started
      (Fixture.world (Fixture.registry "singleton" true false)) = false.
Proof. repeat split; reflexivity. Qed.

(** ** Enumerating bundles *)

Section Bundles.
Context {Core : Type} `{!CoreBundleContext Core}.
Implicit Types (w : World Core) (this : BundleContext).

Lemma call_eq {R} (c : CoreCall R) w :
  call c w = (fst (core_step c (core w)),
              set_core (snd (core_step c (core w))) (set_trace (trace w ++ [event c]) w)).
Proof. unfold call. by destruct (core_step c (core w)). Qed.

(** C7, amended.  On a usable context: [GetBundles()] returns what the
    bundle hooks' [FilterBundles] returns for the registry's list, and
    [GetBundle(id)] what [FilterBundle] returns for the registry's bundle;
    [GetBundles(location)] returns the registry's list for that location as
    it is, and calls no hook. *)
Theorem GetBundles_through_hooks w this b bp :
  usable this w = Some (b, bp) →
  (∀ found c1, core_step bundleRegistry_GetBundles (core w) = (Ok found, c1) →
     BundleContext.GetBundles this w
     = (fst (core_step (bundleHooks_FilterBundles this (MakeBundle <$> found)) c1),
        set_core (snd (core_step (bundleHooks_FilterBundles this (MakeBundle <$> found)) c1))
          (set_trace (trace w ++ [event bundleRegistry_GetBundles;
                                  event (bundleHooks_FilterBundles this (MakeBundle <$> found))])
             w)))
  ∧ (∀ id found c1, core_step (bundleRegistry_GetBundle id) (core w) = (Ok found, c1) →
     BundleContext.GetBundle_id this id w
     = (fst (core_step (bundleHooks_FilterBundle this (MakeBundle found)) c1),
        set_core (snd (core_step (bundleHooks_FilterBundle this (MakeBundle found)) c1))
          (set_trace (trace w ++ [event (bundleRegistry_GetBundle id);
                                  event (bundleHooks_FilterBundle this (MakeBundle found))])
             w)))
  ∧ (∀ location found c1,
       core_step (bundleRegistry_GetBundles_location location) (core w) = (Ok found, c1) →
       BundleContext.GetBundles_location this location w
       = (Ok (MakeBundle <$> found),
          set_core c1
            (set_trace (trace w ++ [event (bundleRegistry_GetBundles_location location)]) w))).
Proof.
  intros Hthis. destruct (enter_usable _ _ _ _ Hthis) as (p & _ & Henter).
  split; [|split].
  - intros found c1 Hreg. unfold BundleContext.GetBundles.
    rewrite (bind_ok _ _ _ _ _ Henter).
    erewrite bind_ok by (rewrite call_eq, Hreg; reflexivity).
    rewrite call_eq. unfold set_core, set_trace; simpl. by rewrite <- app_assoc.
  - intros id found c1 Hreg. unfold BundleContext.GetBundle_id.
    rewrite (bind_ok _ _ _ _ _ Henter).
    erewrite bind_ok by (rewrite call_eq, Hreg; reflexivity).
    rewrite call_eq. unfold set_core, set_trace; simpl. by rewrite <- app_assoc.
  - intros location found c1 Hreg. unfold BundleContext.GetBundles_location.
    rewrite (bind_ok _ _ _ _ _ Henter).
    erewrite bind_ok by (rewrite call_eq, Hreg; reflexivity).
    reflexivity.
Qed.
End Bundles.

(** A run of the amended C7 on the fixture, whose hooks hide every bundle:
    [GetBundles()] on the started context returns the hooks' empty list. *)
Lemma GetBundles_through_hooks_witness :
  BundleContext.GetBundles Fixture.started
    (Fixture.world (Fixture.registry "singleton" true false))
  = (Ok [],
     set_core (Fixture.registry "singleton" true false)
       (set_trace
          [event bundleRegistry_GetBundles;
           event (bundleHooks_FilterBundles Fixture.started
                    [MakeBundle (Some 1%positive); MakeBundle (Some 2%positive)])]
          (Fixture.world (Fixture.registry "singleton" true false)))).
Proof.
  destruct (GetBundles_through_hooks
              (Fixture.world (Fixture.registry "singleton" true false))
              Fixture.started 1%positive {| bundleDir := "/data/1" |} eq_refl)
    as (Hall & _ & _).
  exact (Hall [Some 1%positive; Some 2%positive]
           (Fixture.registry "singleton" true false) eq_refl).
Defined.

(** C7 as stated fails for the overload that takes a location: the fixture's
    hooks hide every bundle, and [GetBundles(location)] still returns the
    bundle installed there, with no hook called. *)
Lemma GetBundles_location_skips_hooks :
  fst (BundleContext.GetBundles_location Fixture.started "file:///bundles/a"
         (Fixture.world (Fixture.registry "singleton" true false)))
  = Ok [MakeBundle (Some 1%positive)]
  ∧ trace (snd (BundleContext.GetBundles_location Fixture.started "file:///bundles/a"
                  (Fixture.world (Fixture.registry "singleton" true false))))
    = [event (bundleRegistry_GetBundles_location "file:///bundles/a")]
  ∧ fst (core_step (bundleHooks_FilterBundles Fixture.started [MakeBundle (Some 1%positive)])
           (Fixture.registry "singleton" true false))
    = Ok [].
Proof. repeat split; reflexivity. Qed.

(** ** The data directory *)

Section DataFile.
Context {Core : Type} `{!CoreBundleContext Core}.
Implicit Types (w : World Core) (this : BundleContext).

(** C9.  On a usable context [GetDataFile(filename)] returns
    [bundleDir + DIR_SEP + filename] and leaves the bundle's directory in
    existence: it is created when it was missing, and the store is left as
    it was when it existed already.  A bundle with an empty [bundleDir] gets
    the empty string, and the store is left as it was. *)
Theorem GetDataFile_data_directory (DIR_SEP : string) w this b bp filename :
  usable this w = Some (b, bp) →
  (bundleDir bp ≠ "" →
     ∃ w', BundleContext.GetDataFile DIR_SEP this filename w
           = (Ok (bundleDir bp +:+ DIR_SEP +:+ filename), w')
         ∧ BundleContext.Exists (bundleDir bp) w' = true
         ∧ directories w' = {[bundleDir bp]} ∪ directories w
         ∧ (BundleContext.Exists (bundleDir bp) w = true → w' = w)
         ∧ w' = set_directories (directories w') w)
  ∧ (bundleDir bp = "" →
       BundleContext.GetDataFile DIR_SEP this filename w = (Ok "", w)).
Proof.
  intros Hthis. destruct (enter_usable _ _ _ _ Hthis) as (p & _ & Henter).
  unfold BundleContext.GetDataFile. rewrite (bind_ok _ _ _ _ _ Henter). simpl.
  split; intros Hdir.
  - rewrite bool_decide_eq_false_2 by done. simpl. rewrite bind_gets.
    unfold BundleContext.Exists at 1.
    destruct (decide (bundleDir bp ∈ directories w)) as [Hin|Hout].
    + exists w. rewrite bool_decide_eq_true_2 by done. simpl.
      split; [done|]. unfold BundleContext.Exists.
      split; [by rewrite bool_decide_eq_true_2|].
      split; [set_solver|]. split; [done|]. by destruct w.
    + exists (set_directories ({[bundleDir bp]} ∪ directories w) w).
      rewrite bool_decide_eq_false_2 by done. simpl.
      split; [done|]. unfold BundleContext.Exists. simpl.
      split; [rewrite bool_decide_eq_true_2; [done|set_solver]|].
      split; [done|]. split; [|done].
      rewrite bool_decide_eq_true. done.
  - rewrite bool_decide_eq_true_2 by done. reflexivity.
Qed.
End DataFile.

(** A run of C9 on the fixture: the first request creates [/data/1]. *)
Lemma GetDataFile_data_directory_witness :
  ∃ w', BundleContext.GetDataFile "/" Fixture.started "state.json"
          (Fixture.world (Fixture.registry "singleton" true false))
        = (Ok "/data/1/state.json", w')
      ∧ BundleContext.Exists "/data/1" w' = true
      ∧ directories w' = {[ "/data/1" ]} ∪ ∅
      ∧ (BundleContext.Exists "/data/1"
           (Fixture.world (Fixture.registry "singleton" true false)) = true →
         w' = Fixture.world (Fixture.registry "singleton" true false))
      ∧ w' = set_directories (directories w')
               (Fixture.world (Fixture.registry "singleton" true false)).
Proof.
  apply (GetDataFile_data_directory "/"
           (Fixture.world (Fixture.registry "singleton" true false))
           Fixture.started 1%positive {| bundleDir := "/data/1" |} "state.json").
  - reflexivity.
  - discriminate.
Defined.

(** ** Destruction of the holders *)

Section Destruction.
Context {Core : Type} `{!CoreBundleContext Core}.
Implicit Types (w : World Core) (h : Holder).

Lemma lock_same_bundles (wp : weak_ptr) w w' :
  bundles w' = bundles w → lock wp w' = lock wp w.
Proof. unfold lock. by intros ->. Qed.

Lemma destroy_try_catch h :
  destroy h = try_catch (holder_try_block h)
                (λ e, let* gone := gets (expired (holder_bundle h)) in
                      if negb gone
                      then DIAG_LOG (holder_log_prefix h +:+ exception_what e)
                      else ret tt).
Proof. by destruct h. Qed.

(** One call to a collaborator, whatever it answers. *)
Ltac run_call :=
  unfold bind; rewrite call_eq;
  destruct (core_step _ _) as [[?|?] ?]; simpl; eexists _, _; by repeat split.

(** The [try] block makes the calls of [unget_calls], and touches nothing
    but the core's state and the trace. *)
Lemma holder_try_block_spec h w :
  ∃ r w', holder_try_block h w = (r, w')
    ∧ trace w' = trace w ++ unget_calls h w
    ∧ sink w' = sink w
    ∧ same_objects w w'.
Proof.
  destruct h as [b sref s|b sref s|im sref b]; simpl.
  - unfold ServiceHolder.try_block. rewrite bind_gets. run_call.
  - unfold ServiceHolder.try_block. rewrite bind_gets. run_call.
  - unfold UngetHelper.try_block. rewrite !bind_gets.
    destruct (ServiceReference_bool sref w).
    + rewrite bind_gets. case_bool_decide; run_call.
    + eexists _, _. repeat split. by rewrite app_nil_r.
Qed.

(** C6.  Destroying a holder never raises.  What its [try] block raises is
    caught; the log gets one line for it while the holder's bundle is
    alive, and nothing otherwise. *)
Theorem destructor_swallows_exceptions h w :
  ∃ w', destroy h w = (Ok tt, w')
    ∧ sink w' = sink w ++
        match fst (holder_try_block h w) with
        | Ok _ => []
        | Throw e =>
            if expired (holder_bundle h) w then []
            else [holder_log_prefix h +:+ exception_what e]
        end.
Proof.
  rewrite destroy_try_catch. unfold try_catch.
  destruct (holder_try_block_spec h w) as (r & w1 & -> & _ & Hsink & _ & Hb & _).
  destruct r as [[]|e]; simpl.
  - eexists. split; [done|]. by rewrite Hsink, app_nil_r.
  - rewrite bind_gets. unfold expired.
    rewrite (lock_same_bundles _ _ _ Hb).
    destruct (lock (holder_bundle h) w); simpl.
    + eexists. split; [done|]. simpl. by rewrite Hsink.
    + eexists. split; [done|]. by rewrite Hsink, app_nil_r.
Qed.

Lemma destroy_spec h w :
  ∃ w', destroy h w = (Ok tt, w')
    ∧ trace w' = trace w ++ unget_calls h w
    ∧ same_objects w w'.
Proof.
  rewrite destroy_try_catch. unfold try_catch.
  destruct (holder_try_block_spec h w) as (r & w1 & -> & Htr & _ & Hobj).
  destruct r as [[]|e]; simpl.
  - by eexists.
  - rewrite bind_gets.
    destruct (negb (expired (holder_bundle h) w1)); eexists; (split; [done|]);
      simpl; split; done.
Qed.
End Destruction.

(** The destructors on the fixture when unget raises: the exception stops at
    the destructor; the log gets its line while the bundle is alive and stays
    empty for a bundle that is gone. *)
Example destructor_logs_while_bundle_alive :
  sink (snd (destroy (ServiceHolder_void (Some 1%positive) Fixture.greeter
                        (Some Fixture.the_service))
               (Fixture.world (Fixture.registry "singleton" true true))))
  = ["UngetService threw an exception. unget failed"]
  ∧ fst (destroy (UngetHelper (Some Fixture.the_map) Fixture.greeter (Some 1%positive))
           (Fixture.world (Fixture.registry "prototype" true true)))
    = Ok tt
  ∧ sink (snd (destroy (UngetHelper (Some Fixture.the_map) Fixture.greeter (Some 1%positive))
                 (Fixture.world (Fixture.registry "prototype" true true))))
    = ["UngetHelper threw an exception. unget failed"].
Proof. repeat split; vm_compute; reflexivity. Qed.

Example destructor_silent_when_bundle_gone :
  destroy (ServiceHolder_void (Some 9%positive) Fixture.greeter (Some Fixture.the_service))
    (Fixture.world (Fixture.registry "singleton" true true))
  = (Ok tt,
     set_trace [event (reference_UngetService Fixture.greeter None true)]
       (Fixture.world (Fixture.registry "singleton" true true))).
Proof. vm_compute; reflexivity. Qed.

(** ** Handles: copies, drops and the last owner *)

Section Handles.
Context {Core : Type} `{!CoreBundleContext Core}.
Implicit Types (w : World Core) (h : Holder) (a : addr).

Lemma count_after_0 ops m : count_after 0 ops = Some m → ops = [] ∧ m = 0.
Proof. destruct ops as [|[] ops]; simpl; naive_solver. Qed.

Lemma use_count_lookup a w n h : holders w !! a = Some (n, h) → use_count a w = n.
Proof. unfold use_count. by intros ->. Qed.

(** A run of copies and drops on a block with [S n] owners.  While an
    owner is left nothing but the use count changes; the drop of the last
    owner destroys the holder, which makes the calls of [unget_calls]. *)
Lemma handle_run_spec a h ops : ∀ n m w,
  holders w !! a = Some (S n, h) →
  count_after (S n) ops = Some m →
  ∃ w', handle_run a ops w = (Ok tt, w')
    ∧ bundles w' = bundles w
    ∧ use_count a w' = m
    ∧ match m with
      | 0 => trace w' = trace w ++ unget_calls h w ∧ holders w' !! a = None
      | S _ => trace w' = trace w ∧ core w' = core w ∧ holders w' !! a = Some (m, h)
      end.
Proof.
  induction ops as [|[] ops IH]; intros n m w Ha Hm; simpl in Hm.
  - injection Hm as <-. exists w. simpl.
    by rewrite (use_count_lookup _ _ _ _ Ha).
  - simpl. unfold bind at 1, copy, modify.
    set (w1 := set_holders _ w).
    assert (holders w1 !! a = Some (S (S n), h)) as Ha1.
    { subst w1; simpl. rewrite lookup_alter_eq, Ha. done. }
    destruct (IH _ _ w1 Ha1 Hm) as (w' & -> & Hb & Hc & Hrest).
    exists w'. repeat split; try done.
  - simpl. unfold bind at 1, release. rewrite Ha.
    destruct n as [|n].
    + apply count_after_0 in Hm as [-> ->].
      set (w1 := set_holders _ w).
      destruct (destroy_spec h w1) as (w' & -> & Htr & _ & Hb & _ & Hh).
      exists w'. simpl. split; [done|]. split; [done|].
      assert (holders w' !! a = None) as Hnone.
      { rewrite Hh. subst w1; simpl. apply lookup_delete_eq. }
      split; [unfold use_count; by rewrite Hnone|].
      split; [|done]. rewrite Htr. reflexivity.
    + set (w1 := set_holders _ w).
      assert (holders w1 !! a = Some (S n, h)) as Ha1.
      { subst w1; simpl. apply lookup_insert_eq. }
      destruct (IH _ _ w1 Ha1 Hm) as (w' & -> & Hb & Hc & Hrest).
      exists w'. repeat split; try done.
Qed.
End Handles.

(** ** Getting a service through a context *)

Section GetService.
Context {Core : Type} {framework : CoreBundleContext Core}.
Implicit Types (w : World Core) (this : BundleContext).

Lemma bind_ok_inv {A B} (m : M A) (k : A → M B) w (b : B) w2 :
  bind m k w = (Ok b, w2) → ∃ a w1, m w = (Ok a, w1) ∧ k a w1 = (Ok b, w2).
Proof.
  unfold bind. destruct (m w) as [[a|e] w1]; [|done]. intros Hk. by exists a, w1.
Qed.

Lemma enter_ok_inv w this p b bp w' :
  BundleContext.enter this w = (Ok (p, (b, bp)), w') →
  w' = w ∧ d this = Some p ∧ usable this w = Some (b, bp) ∧ bundles w !! b = Some bp.
Proof.
  unfold BundleContext.enter, usable. destruct (d this) as [q|]; [|done].
  intros ([] & w1 & Hcheck & Hrest)%bind_ok_inv.
  unfold BundleContext.CheckValid in Hcheck.
  destruct (BundleContext.IsValid q w); [|done]. injection Hcheck as <-.
  apply bind_ok_inv in Hrest as ([b' bp'] & w2 & Hget & Hret).
  unfold BundleContext.GetAndCheckBundlePrivate in Hget.
  destruct (lock _ w) as [[b'' bp'']|] eqn:Hlock; [|done].
  injection Hget as -> -> <-. injection Hret as -> -> -> <-.
  repeat split; try done.
  unfold lock in Hlock. destruct (BundleContext.context_bundle p w) as [x|]; [|done].
  destruct (bundles w !! x) eqn:Hx; [|done]. by injection Hlock as -> ->.
Qed.

(** What a successful [GetService] leaves behind: one call to the
    reference, and a new block with one owner that holds the reference and
    the context's bundle. *)
Lemma GetService_ok_inv w this reference hdl w1 :
  BundleContext.GetService this reference w = (Ok hdl, w1) →
  ∃ a b bp, usable this w = Some (b, bp)
    ∧ bundles w1 = bundles w ∧ bundles w !! b = Some bp
    ∧ owner hdl = Some a
    ∧ holders w1 !! a = Some (1, ServiceHolder_void (Some b) reference (get hdl))
    ∧ trace w1 = trace w ++ [event (reference_GetService reference (Some b))].
Proof.
  unfold BundleContext.GetService. rewrite bind_gets.
  destruct (ServiceReference_bool reference w); [simpl|done].
  intros ([p [b bp]] & w' & (-> & _ & Husable & Hb)%enter_ok_inv & Hrest)%bind_ok_inv.
  apply bind_ok_inv in Hrest as (service & w2 & Hcall & Hrest).
  rewrite call_eq in Hcall. injection Hcall as Hservice <-.
  apply bind_ok_inv in Hrest as (a & w3 & Hmake & Hret).
  unfold make_shared in Hmake. injection Hmake as <- <-. injection Hret as <- <-.
  eexists _, b, bp. repeat split; try done. simpl. apply lookup_insert_eq.
Qed.

Lemma GetService_U_ok_inv w this reference hdl w1 :
  BundleContext.GetService_U this reference w = (Ok hdl, w1) →
  ∃ a b bp, usable this w = Some (b, bp)
    ∧ bundles w1 = bundles w ∧ bundles w !! b = Some bp
    ∧ owner hdl = Some a
    ∧ holders w1 !! a = Some (1, ServiceHolder_map (Some b) reference (get hdl))
    ∧ trace w1 = trace w ++ [event (reference_GetServiceInterfaceMap reference (Some b))].
Proof.
  unfold BundleContext.GetService_U. rewrite bind_gets.
  destruct (ServiceReference_bool reference w); [simpl|done].
  intros ([p [b bp]] & w' & (-> & _ & Husable & Hb)%enter_ok_inv & Hrest)%bind_ok_inv.
  apply bind_ok_inv in Hrest as (service & w2 & Hcall & Hrest).
  rewrite call_eq in Hcall. injection Hcall as Hservice <-.
  apply bind_ok_inv in Hrest as (a & w3 & Hmake & Hret).
  unfold make_shared in Hmake. injection Hmake as <- <-. injection Hret as <- <-.
  eexists _, b, bp. repeat split; try done. simpl. apply lookup_insert_eq.
Qed.

Lemma lock_alive (b : addr) (bp : BundlePrivate) w :
  bundles w !! b = Some bp → fst <$> lock (Some b) w = Some b.
Proof. unfold lock. by intros ->. Qed.

(** On a usable context, with a reference that converts to [true] and a
    registry that answers, each overload returns: the handle stores the
    registry's answer and owns a new block. *)
Lemma GetService_returns w this b bp reference service c1 :
  usable this w = Some (b, bp) →
  ServiceReference_bool reference w = true →
  core_step (reference_GetService reference (Some b)) (core w) = (Ok service, c1) →
  ∃ a w1, BundleContext.GetService this reference w
          = (Ok {| owner := Some a; get := service |}, w1).
Proof.
  intros (p & _ & Henter)%enter_usable Href Hstep.
  unfold BundleContext.GetService. rewrite bind_gets, Href. simpl.
  rewrite (bind_ok _ _ _ _ _ Henter).
  erewrite bind_ok by (rewrite call_eq, Hstep; reflexivity).
  by eexists _, _.
Qed.

Lemma GetService_U_returns w this b bp reference serviceInterfaceMap c1 :
  usable this w = Some (b, bp) →
  ServiceReference_bool reference w = true →
  core_step (reference_GetServiceInterfaceMap reference (Some b)) (core w)
  = (Ok serviceInterfaceMap, c1) →
  ∃ a w1, BundleContext.GetService_U this reference w
          = (Ok {| owner := Some a; get := serviceInterfaceMap |}, w1).
Proof.
  intros (p & _ & Henter)%enter_usable Href Hstep.
  unfold BundleContext.GetService_U. rewrite bind_gets, Href. simpl.
  rewrite (bind_ok _ _ _ _ _ Henter).
  erewrite bind_ok by (rewrite call_eq, Hstep; reflexivity).
  by eexists _, _.
Qed.

(** C2.  A [GetService] that returns gives back a handle on a fresh block
    with one owner.  Through any run of copies and drops of that handle no
    unget is made while an owner is left, and the drop of the last owner
    makes exactly one call, [UngetService(b, true)], on the reference that
    was passed in and for the bundle [b] of the context; the client calls no
    unget itself.  This holds for both overloads, and both overloads do
    return, with the registry's answer as the stored pointer, whenever the
    context is usable, the reference converts to [true] and the registry
    answers the get. *)
Theorem GetService_handle_ungets_once w this reference :
  (∀ hdl w1, BundleContext.GetService this reference w = (Ok hdl, w1) →
     ∃ a b bp, usable this w = Some (b, bp) ∧ owner hdl = Some a ∧ use_count a w1 = 1
       ∧ ∀ ops m, count_after 1 ops = Some m →
           ∃ w2, handle_run a ops w1 = (Ok tt, w2) ∧ use_count a w2 = m
             ∧ trace w2 = trace w1 ++
                 match m with
                 | 0 => [event (reference_UngetService reference (Some b) true)]
                 | S _ => []
                 end)
  ∧ (∀ hdl w1, BundleContext.GetService_U this reference w = (Ok hdl, w1) →
     ∃ a b bp, usable this w = Some (b, bp) ∧ owner hdl = Some a ∧ use_count a w1 = 1
       ∧ ∀ ops m, count_after 1 ops = Some m →
           ∃ w2, handle_run a ops w1 = (Ok tt, w2) ∧ use_count a w2 = m
             ∧ trace w2 = trace w1 ++
                 match m with
                 | 0 => [event (reference_UngetService reference (Some b) true)]
                 | S _ => []
                 end)
  ∧ (∀ b bp service c1,
       usable this w = Some (b, bp) →
       ServiceReference_bool reference w = true →
       core_step (reference_GetService reference (Some b)) (core w) = (Ok service, c1) →
       ∃ a w1, BundleContext.GetService this reference w
               = (Ok {| owner := Some a; get := service |}, w1))
  ∧ (∀ b bp serviceInterfaceMap c1,
       usable this w = Some (b, bp) →
       ServiceReference_bool reference w = true →
       core_step (reference_GetServiceInterfaceMap reference (Some b)) (core w)
       = (Ok serviceInterfaceMap, c1) →
       ∃ a w1, BundleContext.GetService_U this reference w
               = (Ok {| owner := Some a; get := serviceInterfaceMap |}, w1)).
Proof.
  split; [|split; [|split]].
  - intros hdl w1 Hget.
    apply GetService_ok_inv in Hget as (a & b & bp & Hus & Hb1 & Hb & Hown & Hh & _).
    exists a, b, bp. split; [done|]. split; [done|].
    split; [by apply use_count_lookup in Hh|].
    intros ops m Hm.
    destruct (handle_run_spec a _ ops 0 m w1 Hh Hm) as (w2 & Hrun & _ & Hcount & Hm').
    exists w2. split; [done|]. split; [done|].
    destruct m as [|m].
    + destruct Hm' as [-> _]. cbv beta iota delta [unget_calls].
      by rewrite (lock_same_bundles _ _ _ Hb1), (lock_alive b bp w).
    + destruct Hm' as [-> _]. by rewrite app_nil_r.
  - intros hdl w1 Hget.
    apply GetService_U_ok_inv in Hget as (a & b & bp & Hus & Hb1 & Hb & Hown & Hh & _).
    exists a, b, bp. split; [done|]. split; [done|].
    split; [by apply use_count_lookup in Hh|].
    intros ops m Hm.
    destruct (handle_run_spec a _ ops 0 m w1 Hh Hm) as (w2 & Hrun & _ & Hcount & Hm').
    exists w2. split; [done|]. split; [done|].
    destruct m as [|m].
    + destruct Hm' as [-> _]. cbv beta iota delta [unget_calls].
      by rewrite (lock_same_bundles _ _ _ Hb1), (lock_alive b bp w).
    + destruct Hm' as [-> _]. by rewrite app_nil_r.
  - intros b bp service c1. apply GetService_returns.
  - intros b bp serviceInterfaceMap c1. apply GetService_U_returns.
Qed.
End GetService.

(** A run of C2 on the fixture, once for each overload: the get returns, the
    handle is copied once, and the second drop makes the one unget. *)
Lemma GetService_handle_ungets_once_witness :
  (∃ a w1 w2,
     BundleContext.GetService Fixture.started Fixture.greeter
       (Fixture.world (Fixture.registry "singleton" true false))
     = (Ok {| owner := Some a; get := Some Fixture.the_service |}, w1)
     ∧ handle_run a [Copy; Drop; Drop] w1 = (Ok tt, w2)
     ∧ trace w2
       = [event (reference_GetService Fixture.greeter (Some 1%positive));
          event (reference_UngetService Fixture.greeter (Some 1%positive) true)])
  ∧ (∃ a w1 w2,
       BundleContext.GetService_U Fixture.started Fixture.greeter
         (Fixture.world (Fixture.registry "singleton" true false))
       = (Ok {| owner := Some a; get := Some Fixture.the_map |}, w1)
       ∧ handle_run a [Copy; Drop; Drop] w1 = (Ok tt, w2)
       ∧ trace w2
         = [event (reference_GetServiceInterfaceMap Fixture.greeter (Some 1%positive));
            event (reference_UngetService Fixture.greeter (Some 1%positive) true)]).
Proof.
  destruct (GetService_handle_ungets_once (framework := Fixture.framework)
              (Fixture.world (Fixture.registry "singleton" true false))
              Fixture.started Fixture.greeter) as (Hvoid & Hmap & Hvoid_returns & Hmap_returns).
  split.
  - destruct (Hvoid_returns 1%positive {| bundleDir := "/data/1" |}
                (Some Fixture.the_service) (Fixture.registry "singleton" true false)
                eq_refl eq_refl eq_refl) as (a & w1 & Hget).
    destruct (Hvoid _ _ Hget) as (a' & b & bp & Husable & [= <-] & _ & Hops).
    injection Husable as <- _.
    destruct (Hops [Copy; Drop; Drop] 0 eq_refl) as (w2 & Hrun & _ & Htrace).
    exists a, w1, w2. split; [exact Hget|]. split; [exact Hrun|].
    assert (w1 = snd (BundleContext.GetService Fixture.started Fixture.greeter
                        (Fixture.world (Fixture.registry "singleton" true false))))
      as Hw1 by (by rewrite Hget).
    rewrite Htrace, Hw1. vm_compute. reflexivity.
  - destruct (Hmap_returns 1%positive {| bundleDir := "/data/1" |}
                (Some Fixture.the_map) (Fixture.registry "singleton" true false)
                eq_refl eq_refl eq_refl) as (a & w1 & Hget).
    destruct (Hmap _ _ Hget) as (a' & b & bp & Husable & [= <-] & _ & Hops).
    injection Husable as <- _.
    destruct (Hops [Copy; Drop; Drop] 0 eq_refl) as (w2 & Hrun & _ & Htrace).
    exists a, w1, w2. split; [exact Hget|]. split; [exact Hrun|].
    assert (w1 = snd (BundleContext.GetService_U Fixture.started Fixture.greeter
                        (Fixture.world (Fixture.registry "singleton" true false))))
      as Hw1 by (by rewrite Hget).
    rewrite Htrace, Hw1. vm_compute. reflexivity.
Defined.

(** ** Service objects *)

Section ServiceObjects.
Context {Core : Type} {framework : CoreBundleContext Core}.
Implicit Types (w : World Core) (this : ServiceObjectsBasePrivate).

Lemma GetBundle_usable w (ctx : BundleContext) b bp :
  usable ctx w = Some (b, bp) →
  BundleContext.GetBundle ctx w = (Ok (MakeBundle (Some b)), w).
Proof.
  intros (p & _ & Henter)%enter_usable. unfold BundleContext.GetBundle.
  by rewrite (bind_ok _ _ _ _ _ Henter).
Qed.

(** The private lookup on a usable context is one call to the reference,
    chosen by the scope. *)
Lemma Private_GetServiceInterfaceMap_usable w this b bp :
  usable (MakeBundleContext (m_context this)) w = Some (b, bp) →
  ServiceObjectsBase.Private_GetServiceInterfaceMap this w
  = call (if bool_decide (reference_scope (m_reference this) (core w) = SCOPE_PROTOTYPE)
          then reference_GetPrototypeService (m_reference this) (MakeBundle (Some b))
          else reference_GetServiceInterfaceMap (m_reference this) (Some b)) w.
Proof.
  intros Hctx%GetBundle_usable. unfold ServiceObjectsBase.Private_GetServiceInterfaceMap.
  rewrite bind_gets. case_bool_decide; by rewrite (bind_ok _ _ _ _ _ Hctx).
Qed.

(** C5, amended.  When the reference no longer converts to [true] (its
    registration is gone), [GetService] and [GetServiceInterfaceMap] return a
    null handle, call nothing and raise nothing, whatever the context.  When
    the reference is live but the registry has no instance to give (it
    answers the lookup with a null map), both return a null handle and
    allocate no holder, provided the context the service objects were made
    for is still usable. *)
Theorem unavailable_service_is_null w this :
  (ServiceReference_bool (m_reference this) w = false →
     ServiceObjectsBase.GetService this w = (Ok (Value nullptr), w)
     ∧ ServiceObjectsBase.GetServiceInterfaceMap this w = (Ok nullptr, w)
     ∧ ServiceObjects_void.GetService this w = (Ok nullptr, w))
  ∧ (∀ b bp c1,
       ServiceReference_bool (m_reference this) w = true →
       usable (MakeBundleContext (m_context this)) w = Some (b, bp) →
       core_step
         (if bool_decide (reference_scope (m_reference this) (core w) = SCOPE_PROTOTYPE)
          then reference_GetPrototypeService (m_reference this) (MakeBundle (Some b))
          else reference_GetServiceInterfaceMap (m_reference this) (Some b))
         (core w)
       = (Ok None, c1) →
       ∃ w1,
         ServiceObjectsBase.GetService this w = (Ok (Value nullptr), w1)
         ∧ ServiceObjectsBase.GetServiceInterfaceMap this w = (Ok nullptr, w1)
         ∧ ServiceObjects_void.GetService this w = (Ok nullptr, w1)
         ∧ holders w1 = holders w
         ∧ trace w1
           = trace w ++
             [event (if bool_decide (reference_scope (m_reference this) (core w)
                                     = SCOPE_PROTOTYPE)
                     then reference_GetPrototypeService (m_reference this)
                            (MakeBundle (Some b))
                     else reference_GetServiceInterfaceMap (m_reference this) (Some b))]).
Proof.
  unfold ServiceObjects_void.GetService, ServiceObjectsBase.GetService,
    ServiceObjectsBase.GetServiceInterfaceMap.
  split.
  - intros Href. rewrite !bind_gets, Href. done.
  - intros b bp c1 Href Hctx Hstep.
    pose proof (Private_GetServiceInterfaceMap_usable _ _ _ _ Hctx) as Hprivate.
    rewrite call_eq, Hstep in Hprivate. simpl in Hprivate.
    eexists. rewrite !bind_gets, Href. simpl.
    rewrite !(bind_ok _ _ _ _ _ Hprivate). by repeat split.
Qed.
End ServiceObjects.

(** A run of the amended C5 on the fixture: with the registration gone
    nothing is called, and with a factory that produces nothing the one
    lookup is made through the started context; both give the null handle. *)
Lemma unavailable_service_is_null_witness :
  ServiceObjectsBase.GetService Fixture.objects
    (Fixture.world (Fixture.registry "prototype" false false))
  = (Ok (Value nullptr), Fixture.world (Fixture.registry "prototype" false false))
  ∧ ∃ w1,
      ServiceObjectsBase.GetService Fixture.objects (Fixture.world Fixture.failing_factory)
      = (Ok (Value nullptr), w1)
      ∧ ServiceObjectsBase.GetServiceInterfaceMap Fixture.objects
          (Fixture.world Fixture.failing_factory)
        = (Ok nullptr, w1)
      ∧ ServiceObjects_void.GetService Fixture.objects (Fixture.world Fixture.failing_factory)
        = (Ok nullptr, w1)
      ∧ holders w1 = ∅
      ∧ trace w1 = [event (reference_GetPrototypeService Fixture.greeter
                             (MakeBundle (Some 1%positive)))].
Proof.
  split.
  - destruct (unavailable_service_is_null (framework := Fixture.framework)
                (Fixture.world (Fixture.registry "prototype" false false)) Fixture.objects)
      as [Hgone _].
    apply Hgone. reflexivity.
  - destruct (unavailable_service_is_null (framework := Fixture.framework)
                (Fixture.world Fixture.failing_factory) Fixture.objects) as [_ Hnull].
    exact (Hnull 1%positive {| bundleDir := "/data/1" |} Fixture.failing_factory
             eq_refl eq_refl eq_refl).
Defined.

(** C5 as stated fails when the service objects were made for a context that
    is no longer valid: the reference is live, the factory produces nothing,
    and the gets raise "The bundle context is no longer valid" instead of
    returning the null handle. *)
Lemma unavailable_service_invalid_context_raises :
  ServiceReference_bool Fixture.greeter (Fixture.world Fixture.failing_factory) = true
  ∧ fst (core_step (reference_GetPrototypeService Fixture.greeter (MakeBundle (Some 1%positive)))
           Fixture.failing_factory)
    = Ok None
  ∧ BundleContext.to_bool Fixture.stopped (Fixture.world Fixture.failing_factory) = false
  ∧ ServiceObjectsBase.GetService Scenario.stopped_objects
      (Fixture.world Fixture.failing_factory)
    = (Throw (runtime_error BundleContext.no_longer_valid),
       Fixture.world Fixture.failing_factory)
  ∧ ServiceObjectsBase.GetServiceInterfaceMap Scenario.stopped_objects
      (Fixture.world Fixture.failing_factory)
    = (Throw (runtime_error BundleContext.no_longer_valid),
       Fixture.world Fixture.failing_factory).
Proof. repeat split; vm_compute; reflexivity. Qed.

(** ** Scope of a service and the path of its get and unget *)

Section Scope.
Context {Core : Type} {framework : CoreBundleContext Core}.
Implicit Types (w : World Core) (this : ServiceObjectsBasePrivate).

Lemma release_last_owner (a : addr) (h : Holder) w :
  holders w !! a = Some (1, h) →
  ∃ w', release a w = (Ok tt, w')
    ∧ trace w' = trace w ++ unget_calls h w
    ∧ holders w' !! a = None.
Proof.
  intros Ha. unfold release. rewrite Ha.
  destruct (destroy_spec h (set_holders (delete a (holders w)) w))
    as (w' & -> & Htr & _ & _ & _ & Hh).
  exists w'. split; [done|]. split; [by rewrite Htr|].
  rewrite Hh. simpl. apply lookup_delete_eq.
Qed.

Lemma context_lock_usable w this b bp :
  usable (MakeBundleContext (m_context this)) w = Some (b, bp) →
  ServiceObjectsBase.context_lock this w = Some (b, bp).
Proof.
  unfold usable, ServiceObjectsBase.context_lock. simpl.
  destruct (m_context this) as [p|]; [|done].
  by destruct (BundleContext.IsValid p w).
Qed.

Lemma context_lock_same this w w' :
  contexts w' = contexts w → bundles w' = bundles w →
  ServiceObjectsBase.context_lock this w' = ServiceObjectsBase.context_lock this w.
Proof.
  intros Hc Hb. unfold ServiceObjectsBase.context_lock, BundleContext.context_bundle.
  rewrite Hc. destruct (m_context this); [|done]. by apply lock_same_bundles.
Qed.

(** C4, amended.  On a live reference and a usable context, when the
    registry answers with an instance [im]: the get makes one call,
    [GetPrototypeService] when the reference's scope is "prototype" and the
    shared [GetServiceInterfaceMap] otherwise, and returns a handle on a new
    [UngetHelper] that keeps [im].  [GetServiceInterfaceMap] does so for
    every [im]; the typed [GetService] does so when [im] has an entry for the
    reference's interface id, which it reads without testing for it.
    When the last owner of that handle goes, in whatever store [w2]:
    - if the reference still converts to [true] and its scope is what it was
      at the get, one call is made: [UngetPrototypeService] with [im] for
      scope "prototype", [UngetService] with [true] otherwise;
    - if the reference no longer converts to [true], no call is made. *)
Theorem scope_selects_get_and_unget w this b bp im c1 :
  ServiceReference_bool (m_reference this) w = true →
  usable (MakeBundleContext (m_context this)) w = Some (b, bp) →
  core_step
    (if bool_decide (reference_scope (m_reference this) (core w) = SCOPE_PROTOTYPE)
     then reference_GetPrototypeService (m_reference this) (MakeBundle (Some b))
     else reference_GetServiceInterfaceMap (m_reference this) (Some b))
    (core w)
  = (Ok (Some im), c1) →
  ∃ a w1,
    (∀ service, im !! GetInterfaceId (m_reference this) = Some service →
       ServiceObjectsBase.GetService this w
       = (Ok (Value {| owner := Some a; get := Some service |}), w1))
    ∧ ServiceObjectsBase.GetServiceInterfaceMap this w
      = (Ok {| owner := Some a; get := Some im |}, w1)
    ∧ trace w1
      = trace w ++
        [event (if bool_decide (reference_scope (m_reference this) (core w) = SCOPE_PROTOTYPE)
                then reference_GetPrototypeService (m_reference this) (MakeBundle (Some b))
                else reference_GetServiceInterfaceMap (m_reference this) (Some b))]
    ∧ holders w1 !! a = Some (1, UngetHelper (Some im) (m_reference this) (Some b))
    ∧ ∀ w2, holders w2 !! a = Some (1, UngetHelper (Some im) (m_reference this) (Some b)) →
        ∃ w3, release a w2 = (Ok tt, w3)
          ∧ (ServiceReference_bool (m_reference this) w2 = true →
             reference_scope (m_reference this) (core w2)
             = reference_scope (m_reference this) (core w) →
             trace w3
             = trace w2 ++
               [event (if bool_decide (reference_scope (m_reference this) (core w)
                                       = SCOPE_PROTOTYPE)
                       then reference_UngetPrototypeService (m_reference this)
                              (fst <$> lock (Some b) w2) (Some im)
                       else reference_UngetService (m_reference this)
                              (fst <$> lock (Some b) w2) true)])
          ∧ (ServiceReference_bool (m_reference this) w2 = false → trace w3 = trace w2).
Proof.
  intros Href Hctx Hstep.
  pose proof (Private_GetServiceInterfaceMap_usable _ _ _ _ Hctx) as Hprivate.
  rewrite call_eq, Hstep in Hprivate. simpl in Hprivate.
  pose proof (context_lock_usable _ _ _ _ Hctx) as Hlock.
  eexists (fresh (dom (holders w))), _.
  split; [|split; [|split; [|split]]].
  - intros service Hservice.
    unfold ServiceObjectsBase.GetService. rewrite bind_gets, Href. simpl.
    rewrite (bind_ok _ _ _ _ _ Hprivate). rewrite bind_gets.
    rewrite (context_lock_same this w), Hlock by reflexivity.
    unfold bind, make_shared. rewrite Hservice. reflexivity.
  - unfold ServiceObjectsBase.GetServiceInterfaceMap. rewrite bind_gets, Href. simpl.
    rewrite (bind_ok _ _ _ _ _ Hprivate). rewrite bind_gets.
    rewrite (context_lock_same this w), Hlock by reflexivity.
    reflexivity.
  - reflexivity.
  - simpl. apply lookup_insert_eq.
  - intros w2 Ha.
    destruct (release_last_owner _ _ _ Ha) as (w3 & Hrel & Htr & _).
    exists w3. split; [done|]. rewrite Htr.
    cbv beta iota delta [unget_calls].
    split.
    + intros -> ->. by case_bool_decide.
    + intros ->. by rewrite app_nil_r.
Qed.
End Scope.

(** A run of the amended C4 on the fixture, scope "prototype": the get goes
    through [GetPrototypeService], and dropping the handle while the
    registration is live makes the one [UngetPrototypeService] with the map
    that the get returned. *)
Lemma scope_selects_get_and_unget_witness :
  ∃ a w1 w3,
    ServiceObjectsBase.GetService Fixture.objects
      (Fixture.world (Fixture.registry "prototype" true false))
    = (Ok (Value {| owner := Some a; get := Some Fixture.the_service |}), w1)
    ∧ release a w1 = (Ok tt, w3)
    ∧ trace w3
      = [event (reference_GetPrototypeService Fixture.greeter (MakeBundle (Some 1%positive)));
         event (reference_UngetPrototypeService Fixture.greeter (Some 1%positive)
                  (Some Fixture.the_map))].
Proof.
  destruct (scope_selects_get_and_unget (framework := Fixture.framework)
              (Fixture.world (Fixture.registry "prototype" true false))
              Fixture.objects 1%positive {| bundleDir := "/data/1" |} Fixture.the_map
              (Fixture.registry "prototype" true false) eq_refl eq_refl eq_refl)
    as (a & w1 & Hget & _ & Htr1 & Ha & Hrelease).
  assert (Fixture.the_map !! GetInterfaceId (m_reference Fixture.objects)
          = Some Fixture.the_service) as Hentry by (vm_compute; reflexivity).
  specialize (Hget _ Hentry).
  destruct (Hrelease w1 Ha) as (w3 & Hrel & Hlive & _).
  exists a, w1, w3. split; [exact Hget|]. split; [exact Hrel|].
  assert (core w1 = Fixture.registry "prototype" true false
          ∧ bundles w1 = bundles (Fixture.world (Fixture.registry "prototype" true false)))
    as [Hcore Hbundles].
  { assert (snd (ServiceObjectsBase.GetService Fixture.objects
                   (Fixture.world (Fixture.registry "prototype" true false))) = w1) as <-
      by (by rewrite Hget).
    split; vm_compute; reflexivity. }
  rewrite Hlive, Htr1.
  - unfold lock. rewrite Hbundles. reflexivity.
  - unfold ServiceReference_bool. rewrite Hcore. reflexivity.
  - rewrite Hcore. reflexivity.
Defined.

(** C4 as stated fails when the registration goes away between the get and
    the release: the handle of a prototype-scope service is dropped, and no
    unget of any kind is made. *)
Lemma release_after_unregister_makes_no_unget :
  fst (ServiceObjectsBase.GetService Fixture.objects
         (Fixture.world (Fixture.registry "prototype" true false)))
  = Ok (Value {| owner := Some 1%positive; get := Some Fixture.the_service |})
  ∧ trace (snd (ServiceObjectsBase.GetService Fixture.objects
                  (Fixture.world (Fixture.registry "prototype" true false))))
    = [event (reference_GetPrototypeService Fixture.greeter (MakeBundle (Some 1%positive)))]
  ∧ use_count 1%positive
      (snd (ServiceObjectsBase.GetService Fixture.objects
              (Fixture.world (Fixture.registry "prototype" true false)))) = 1
  ∧ fst (release 1%positive
           (set_core (Fixture.registry "prototype" false false)
              (snd (ServiceObjectsBase.GetService Fixture.objects
                      (Fixture.world (Fixture.registry "prototype" true false))))))
    = Ok tt
  ∧ trace (snd (release 1%positive
                  (set_core (Fixture.registry "prototype" false false)
                     (snd (ServiceObjectsBase.GetService Fixture.objects
                             (Fixture.world (Fixture.registry "prototype" true false)))))))
    = [event (reference_GetPrototypeService Fixture.greeter (MakeBundle (Some 1%positive)))]
  ∧ holders (snd (release 1%positive
                    (set_core (Fixture.registry "prototype" false false)
                       (snd (ServiceObjectsBase.GetService Fixture.objects
                               (Fixture.world (Fixture.registry "prototype" true false)))))))
    = ∅.
Proof. repeat split; vm_compute; reflexivity. Qed.

(** ** Further properties of [BundleContext.cpp] *)

Section ExpiredBundle.
Context {Core : Type} `{!CoreBundleContext Core}.
Implicit Types (w : World Core) (this : BundleContext).

Lemma enter_expired w this :
  BundleContext.to_bool this w = true → usable this w = None →
  BundleContext.enter this w = (Throw (runtime_error BundleContext.no_longer_valid), w).
Proof.
  unfold BundleContext.to_bool, usable, BundleContext.enter.
  destruct (d this) as [p|]; [|done]. intros Hvalid. rewrite Hvalid. intros Hlock.
  unfold bind at 1, BundleContext.CheckValid. rewrite Hvalid.
  apply bind_throw. unfold BundleContext.GetAndCheckBundlePrivate. by rewrite Hlock.
Qed.

(** X1.  A context that still converts to [true] but whose bundle has been
    destroyed is rejected like an invalidated one: every public member
    function raises "The bundle context is no longer valid" and leaves the
    store untouched (the two [GetService] overloads when given a reference
    that converts to [true]). *)
Theorem expired_bundle_rejects (DIR_SEP : string) w this op :
  BundleContext.to_bool this w = true →
  usable this w = None →
  (∀ r, reference_argument op = Some r → ServiceReference_bool r w = true) →
  run DIR_SEP op this w = (Throw (runtime_error BundleContext.no_longer_valid), w).
Proof.
  intros Hbool Hgone Href.
  pose proof (enter_expired w this Hbool Hgone) as Henter.
  destruct op; simpl in Href; unfold run, discard;
    try (by repeat first [ exact Henter | apply bind_throw ]).
  - unfold BundleContext.to_bool, usable in *. unfold BundleContext.GetLogSink.
    destruct (d this) as [p|]; [|done]. rewrite Hbool in Hgone.
    unfold bind at 1, BundleContext.CheckValid. rewrite Hbool.
    rewrite bind_gets, Hgone. done.
  - apply bind_throw. unfold BundleContext.GetService.
    rewrite bind_gets, (Href reference eq_refl). simpl.
    by apply bind_throw.
  - apply bind_throw. unfold BundleContext.GetService_U.
    rewrite bind_gets, (Href reference eq_refl). simpl.
    by apply bind_throw.
Qed.
End ExpiredBundle.

(** A run of X1: context 12 is marked valid, its bundle 3 is gone, and
    registering a service through it is rejected. *)
Lemma expired_bundle_rejects_witness :
  BundleContext.to_bool Scenario.orphaned Scenario.orphaned_world = true
  ∧ run "/" (op_RegisterService (Some Fixture.the_map) ∅) Scenario.orphaned
      Scenario.orphaned_world
    = (Throw (runtime_error BundleContext.no_longer_valid), Scenario.orphaned_world).
Proof.
  split; [reflexivity|].
  apply expired_bundle_rejects.
  - reflexivity.
  - reflexivity.
  - intros r [=].
Defined.

Section Order.
Context {Core : Type} `{!CoreBundleContext Core}.
Implicit Types (w : World Core) (a b c : BundleContext).

Lemma to_bool_true_d w a :
  BundleContext.to_bool a w = true → ∃ p, d a = Some p.
Proof. unfold BundleContext.to_bool. destruct (d a); [eauto|done]. Qed.

(** X2.  In any one store [operator<] is a strict total order that agrees
    with [operator==]: it is irreflexive and transitive, and of [a < b],
    [a == b], [b < a] exactly one holds. *)
Theorem context_order w :
  (∀ a, BundleContext.lt a a w = false)
  ∧ (∀ a b c, BundleContext.lt a b w = true → BundleContext.lt b c w = true →
       BundleContext.lt a c w = true)
  ∧ (∀ a b,
       (BundleContext.lt a b w = true ∧ BundleContext.eq a b w = false
        ∧ BundleContext.lt b a w = false)
       ∨ (BundleContext.lt a b w = false ∧ BundleContext.eq a b w = true
          ∧ BundleContext.lt b a w = false)
       ∨ (BundleContext.lt a b w = false ∧ BundleContext.eq a b w = false
          ∧ BundleContext.lt b a w = true)).
Proof.
  split; [|split].
  - intros a. unfold BundleContext.lt.
    destruct (BundleContext.to_bool a w) eqn:Ha; [|done].
    destruct (to_bool_true_d _ _ Ha) as [p ->]. simpl. apply Pos.ltb_irrefl.
  - intros a b c. unfold BundleContext.lt.
    destruct (BundleContext.to_bool a w) eqn:Ha; [|done].
    destruct (BundleContext.to_bool b w) eqn:Hb; [|done].
    destruct (BundleContext.to_bool c w) eqn:Hc; [|done].
    destruct (to_bool_true_d _ _ Ha) as [p ->].
    destruct (to_bool_true_d _ _ Hb) as [q ->].
    destruct (to_bool_true_d _ _ Hc) as [r ->]. simpl.
    rewrite !Pos.ltb_lt. lia.
  - intros a b. unfold BundleContext.lt, BundleContext.eq, ptr_eqb.
    destruct (BundleContext.to_bool a w) eqn:Ha, (BundleContext.to_bool b w) eqn:Hb;
      simpl; try tauto.
    destruct (to_bool_true_d _ _ Ha) as [p ->].
    destruct (to_bool_true_d _ _ Hb) as [q ->]. simpl.
    destruct (Pos.compare_spec p q) as [->|Hlt|Hgt].
    + right; left. rewrite Pos.ltb_irrefl. by rewrite bool_decide_eq_true_2.
    + left. rewrite (proj2 (Pos.ltb_lt p q)) by done.
      rewrite bool_decide_eq_false_2 by (intros [=]; lia).
      split; [done|]. split; [done|]. apply Pos.ltb_ge. lia.
    + right; right. rewrite (proj2 (Pos.ltb_lt q p)) by done.
      rewrite bool_decide_eq_false_2 by (intros [=]; lia).
      split; [|done]. apply Pos.ltb_ge. lia.
Qed.
End Order.

(** A run of X2 on two valid contexts of one store. *)
Lemma context_order_witness :
  BundleContext.lt Fixture.started Scenario.orphaned Scenario.orphaned_world = true
  ∧ BundleContext.lt Fixture.started Fixture.stopped Scenario.orphaned_world = true.
Proof.
  destruct (context_order Scenario.orphaned_world) as (_ & Htrans & _).
  split; [reflexivity|].
  apply (Htrans Fixture.started Scenario.orphaned Fixture.stopped); reflexivity.
Defined.

(** ** Further properties: properties, data files, handles *)

Section DataFileAgain.
Context {Core : Type} `{!CoreBundleContext Core}.
Implicit Types (w : World Core) (this : BundleContext).

(** What [GetDataFile] does for a bundle with a data directory. *)
Lemma GetDataFile_creates (DIR_SEP : string) w this b bp filename :
  usable this w = Some (b, bp) →
  bundleDir bp ≠ "" →
  ∃ w', BundleContext.GetDataFile DIR_SEP this filename w
        = (Ok (bundleDir bp +:+ DIR_SEP +:+ filename), w')
      ∧ BundleContext.Exists (bundleDir bp) w' = true
      ∧ w' = set_directories ({[bundleDir bp]} ∪ directories w) w.
Proof.
  intros (p & _ & Henter)%enter_usable Hdir.
  unfold BundleContext.GetDataFile. rewrite (bind_ok _ _ _ _ _ Henter). simpl.
  rewrite bool_decide_eq_false_2 by done. simpl. rewrite bind_gets.
  unfold BundleContext.Exists at 1.
  destruct (decide (bundleDir bp ∈ directories w)) as [Hin|Hout].
  - exists w. rewrite bool_decide_eq_true_2 by done. simpl.
    split; [done|]. unfold BundleContext.Exists.
    split; [by rewrite bool_decide_eq_true_2|].
    destruct w; unfold set_directories; simpl in *. f_equal. set_solver.
  - eexists. rewrite bool_decide_eq_false_2 by done. simpl.
    split; [done|]. unfold BundleContext.Exists. simpl.
    split; [rewrite bool_decide_eq_true_2; [done|set_solver]|done].
Qed.
End DataFileAgain.

Section Properties.
Context {Core : Type} `{!CoreBundleContext Core}.
Implicit Types (w : World Core) (this : BundleContext).

(** X3.  On a usable context [GetProperties] returns the framework
    properties and [GetProperty(key)] the value bound to [key] in them; a key
    that is not bound gives the empty [Any], not an error.  Neither changes
    the store or calls a collaborator. *)
Theorem GetProperty_lookup w this b bp (key : string) :
  usable this w = Some (b, bp) →
  BundleContext.GetProperties this w = (Ok (frameworkProperties (core w)), w)
  ∧ BundleContext.GetProperty this key w
    = (Ok (default Any_empty (frameworkProperties (core w) !! key)), w)
  ∧ (frameworkProperties (core w) !! key = None →
     BundleContext.GetProperty this key w = (Ok Any_empty, w)).
Proof.
  intros (p & _ & Henter)%enter_usable.
  unfold BundleContext.GetProperties, BundleContext.GetProperty.
  rewrite !(bind_ok _ _ _ _ _ Henter), bind_gets.
  split; [done|]. split.
  - unfold ret. by destruct (frameworkProperties (core w) !! key).
  - by intros ->.
Qed.

(** X4.  [GetDataFile] asked twice: the second request finds the directory
    that the first one left, changes nothing, and answers with a path in the
    same directory. *)
Theorem GetDataFile_again (DIR_SEP : string) w this b bp (first second : string) :
  usable this w = Some (b, bp) →
  bundleDir bp ≠ "" →
  ∃ w1,
    BundleContext.GetDataFile DIR_SEP this first w
    = (Ok (bundleDir bp +:+ DIR_SEP +:+ first), w1)
    ∧ BundleContext.GetDataFile DIR_SEP this second w1
      = (Ok (bundleDir bp +:+ DIR_SEP +:+ second), w1)
    ∧ trace w1 = trace w.
Proof.
  intros Hthis Hdir.
  destruct (GetDataFile_creates DIR_SEP w this b bp first Hthis Hdir)
    as (w1 & Hfirst & Hexists & Hw1).
  exists w1. split; [done|].
  assert (usable this w1 = Some (b, bp)) as Hthis1 by (by rewrite Hw1).
  destruct (GetDataFile_creates DIR_SEP w1 this b bp second Hthis1 Hdir)
    as (w2 & Hsecond & _ & Hw2).
  split; [|by rewrite Hw1].
  rewrite Hsecond. f_equal. rewrite Hw2.
  unfold BundleContext.Exists in Hexists. apply bool_decide_eq_true in Hexists.
  rewrite Hw1. destruct w; unfold set_directories; simpl in *. f_equal. set_solver.
Qed.
End Properties.

(** A run of X3: the fixture has no framework property named "org.key". *)
Lemma GetProperty_lookup_witness :
  BundleContext.GetProperty Fixture.started "org.key"
    (Fixture.world (Fixture.registry "singleton" true false))
  = (Ok Any_empty, Fixture.world (Fixture.registry "singleton" true false)).
Proof.
  destruct (GetProperty_lookup (Fixture.world (Fixture.registry "singleton" true false))
              Fixture.started 1%positive {| bundleDir := "/data/1" |} "org.key" eq_refl)
    as (_ & _ & Hmissing).
  apply Hmissing. reflexivity.
Defined.

(** A run of X4: two files of bundle 1. *)
Lemma GetDataFile_again_witness :
  ∃ w1,
    BundleContext.GetDataFile "/" Fixture.started "a.txt"
      (Fixture.world (Fixture.registry "singleton" true false))
    = (Ok "/data/1/a.txt", w1)
    ∧ BundleContext.GetDataFile "/" Fixture.started "b.txt" w1 = (Ok "/data/1/b.txt", w1)
    ∧ trace w1 = [].
Proof.
  apply (GetDataFile_again "/" (Fixture.world (Fixture.registry "singleton" true false))
           Fixture.started 1%positive {| bundleDir := "/data/1" |} "a.txt" "b.txt").
  - reflexivity.
  - discriminate.
Defined.

(** ** Further properties of the handles that [GetService] returns *)

Section HandleProperties.
Context {Core : Type} {framework : CoreBundleContext Core}.
Implicit Types (w : World Core) (this : BundleContext).

(** X5.  When the registry's get raises, [GetService] lets the exception
    through and allocates no holder: the one call is recorded, and no unget
    will follow.  This holds for both overloads. *)
Theorem GetService_get_raises w this b bp reference :
  usable this w = Some (b, bp) →
  ServiceReference_bool reference w = true →
  (∀ e c1, core_step (reference_GetService reference (Some b)) (core w) = (Throw e, c1) →
     BundleContext.GetService this reference w
     = (Throw e,
        set_core c1 (set_trace (trace w ++ [event (reference_GetService reference (Some b))]) w)))
  ∧ (∀ e c1,
       core_step (reference_GetServiceInterfaceMap reference (Some b)) (core w) = (Throw e, c1) →
       BundleContext.GetService_U this reference w
       = (Throw e,
          set_core c1
            (set_trace (trace w ++ [event (reference_GetServiceInterfaceMap reference (Some b))])
               w))).
Proof.
  intros (p & _ & Henter)%enter_usable Href.
  split; intros e c1 Hstep.
  - unfold BundleContext.GetService. rewrite bind_gets, Href. simpl.
    rewrite (bind_ok _ _ _ _ _ Henter).
    apply bind_throw. by rewrite call_eq, Hstep.
  - unfold BundleContext.GetService_U. rewrite bind_gets, Href. simpl.
    rewrite (bind_ok _ _ _ _ _ Henter).
    apply bind_throw. by rewrite call_eq, Hstep.
Qed.

Lemma fresh_holder w : holders w !! fresh (dom (holders w)) = None.
Proof. apply not_elem_of_dom, is_fresh. Qed.

(** What a [GetService] that reaches the registry returns. *)
Lemma GetService_ok w this b bp reference service c1 :
  usable this w = Some (b, bp) →
  ServiceReference_bool reference w = true →
  core_step (reference_GetService reference (Some b)) (core w) = (Ok service, c1) →
  BundleContext.GetService this reference w
  = (Ok {| owner := Some (fresh (dom (holders w))); get := service |},
     set_holders
       (<[fresh (dom (holders w)) := (1, ServiceHolder_void (Some b) reference service)]>
          (holders w))
       (set_core c1 (set_trace (trace w ++ [event (reference_GetService reference (Some b))]) w))).
Proof.
  intros (p & _ & Henter)%enter_usable Href Hstep.
  unfold BundleContext.GetService. rewrite bind_gets, Href. simpl.
  rewrite (bind_ok _ _ _ _ _ Henter).
  erewrite bind_ok by (rewrite call_eq, Hstep; reflexivity).
  reflexivity.
Qed.

(** X6.  When the registry has no service to give (its get returns null),
    [GetService] still returns a handle that owns a holder, with a null
    stored pointer; dropping that handle makes the unget all the same. *)
Theorem GetService_null_service w this b bp reference c1 :
  usable this w = Some (b, bp) →
  ServiceReference_bool reference w = true →
  core_step (reference_GetService reference (Some b)) (core w) = (Ok None, c1) →
  ∃ a w1 w2,
    BundleContext.GetService this reference w = (Ok {| owner := Some a; get := None |}, w1)
    ∧ use_count a w1 = 1
    ∧ release a w1 = (Ok tt, w2)
    ∧ trace w2 = trace w ++ [event (reference_GetService reference (Some b));
                             event (reference_UngetService reference (Some b) true)].
Proof.
  intros Hthis Href Hstep.
  pose proof (GetService_ok _ _ _ _ _ _ _ Hthis Href Hstep) as Hget.
  set (a := fresh (dom (holders w))) in *.
  set (w1 := set_holders _ _) in Hget.
  assert (holders w1 !! a = Some (1, ServiceHolder_void (Some b) reference None)) as Ha
    by apply lookup_insert_eq.
  destruct (release_last_owner _ _ _ Ha) as (w2 & Hrel & Htr & _).
  exists a, w1, w2. split; [done|]. split; [by apply use_count_lookup in Ha|].
  split; [done|]. rewrite Htr. cbv beta iota delta [unget_calls].
  assert (fst <$> lock (Some b) w1 = Some b) as ->.
  { apply enter_usable in Hthis as (p & _ & Henter).
    apply enter_ok_inv in Henter as (_ & _ & _ & Hb).
    by apply (lock_alive b bp). }
  subst w1; simpl. by rewrite <- app_assoc.
Qed.
End HandleProperties.

(** A run of X5 on a registry whose every call raises. *)
Lemma GetService_get_raises_witness :
  @BundleContext.GetService unit Scenario.raising Fixture.started Fixture.greeter
    Scenario.raising_world
  = (Throw (other_exception "registry failure"),
     set_trace [event (reference_GetService Fixture.greeter (Some 1%positive))]
       Scenario.raising_world).
Proof.
  destruct (GetService_get_raises (framework := Scenario.raising) Scenario.raising_world
              Fixture.started 1%positive {| bundleDir := "/data/1" |} Fixture.greeter
              eq_refl eq_refl) as [Hvoid _].
  exact (Hvoid (other_exception "registry failure") tt eq_refl).
Defined.

(** A run of X6 on the fixture whose factory produces nothing. *)
Lemma GetService_null_service_witness :
  ∃ a w1 w2,
    BundleContext.GetService Fixture.started Fixture.greeter
      (Fixture.world Fixture.failing_factory)
    = (Ok {| owner := Some a; get := None |}, w1)
    ∧ use_count a w1 = 1
    ∧ release a w1 = (Ok tt, w2)
    ∧ trace w2 = [event (reference_GetService Fixture.greeter (Some 1%positive));
                  event (reference_UngetService Fixture.greeter (Some 1%positive) true)].
Proof.
  apply (GetService_null_service (framework := Fixture.framework)
           (Fixture.world Fixture.failing_factory) Fixture.started 1%positive
           {| bundleDir := "/data/1" |} Fixture.greeter Fixture.failing_factory);
    reflexivity.
Defined.

Section TwoHandles.
Context {Core : Type} {framework : CoreBundleContext Core}.
Implicit Types (w : World Core) (this : BundleContext).

Lemma GetService_ok_inv_step w this reference hdl w1 :
  BundleContext.GetService this reference w = (Ok hdl, w1) →
  ∃ b bp service c1,
    usable this w = Some (b, bp)
    ∧ bundles w !! b = Some bp
    ∧ ServiceReference_bool reference w = true
    ∧ core_step (reference_GetService reference (Some b)) (core w) = (Ok service, c1).
Proof.
  unfold BundleContext.GetService. rewrite bind_gets.
  destruct (ServiceReference_bool reference w); [simpl|done].
  intros ([p [b bp]] & w' & (-> & _ & Husable & Hb)%enter_ok_inv & Hrest)%bind_ok_inv.
  apply bind_ok_inv in Hrest as (service & w2 & Hcall & _).
  rewrite call_eq in Hcall. injection Hcall as Hservice _.
  exists b, bp, service, (snd (core_step (reference_GetService reference (Some b)) (core w))).
  repeat split; try done.
  destruct (core_step _ _) as [r c]; simpl in *. by subst.
Qed.

(** The drop of the last owner frees the block and leaves the other blocks
    and the bundles as they were. *)
Lemma release_last_owner_frame (a : addr) (h : Holder) w :
  holders w !! a = Some (1, h) →
  ∃ w', release a w = (Ok tt, w')
    ∧ trace w' = trace w ++ unget_calls h w
    ∧ holders w' = delete a (holders w)
    ∧ bundles w' = bundles w.
Proof.
  intros Ha. unfold release. rewrite Ha.
  destruct (destroy_spec h (set_holders (delete a (holders w)) w))
    as (w' & -> & Htr & _ & Hb & _ & Hh).
  exists w'. by repeat split.
Qed.

(** X7.  Two [GetService] calls in a row give handles on two different
    blocks.  Dropping the first handle leaves the second with its one owner;
    dropping both makes two ungets, one per get, in the order of the drops. *)
Theorem GetService_twice w this r1 r2 h1 w1 h2 w2 :
  BundleContext.GetService this r1 w = (Ok h1, w1) →
  BundleContext.GetService this r2 w1 = (Ok h2, w2) →
  ∃ a1 a2 b,
    owner h1 = Some a1 ∧ owner h2 = Some a2 ∧ a1 ≠ a2
    ∧ use_count a1 w2 = 1 ∧ use_count a2 w2 = 1
    ∧ ∃ w3 w4,
        release a1 w2 = (Ok tt, w3) ∧ use_count a1 w3 = 0 ∧ use_count a2 w3 = 1
        ∧ release a2 w3 = (Ok tt, w4) ∧ use_count a2 w4 = 0
        ∧ trace w4 = trace w2 ++ [event (reference_UngetService r1 (Some b) true);
                                  event (reference_UngetService r2 (Some b) true)].
Proof.
  intros Hget1 Hget2.
  destruct (GetService_ok_inv_step _ _ _ _ _ Hget1) as (b & bp & s1 & c1 & Hus & Hb & Hr1 & Hs1).
  rewrite (GetService_ok _ _ _ _ _ _ _ Hus Hr1 Hs1) in Hget1.
  remember (fresh (dom (holders w))) as a1 eqn:Ea1.
  assert (holders w1 !! a1 = Some (1, ServiceHolder_void (Some b) r1 s1)
          ∧ bundles w1 = bundles w ∧ usable this w1 = usable this w
          ∧ owner h1 = Some a1) as (Ha1 & Hb1 & Hsame & Ho1).
  { injection Hget1 as <- <-. repeat split. simpl. apply lookup_insert_eq. }
  clear Hget1.
  destruct (GetService_ok_inv_step _ _ _ _ _ Hget2) as (b' & bp' & s2 & c2 & Hus' & _ & Hr2 & Hs2).
  assert (usable this w1 = Some (b, bp)) as Hus1 by (by rewrite Hsame).
  rewrite Hus1 in Hus'. injection Hus' as <- <-.
  rewrite (GetService_ok _ _ _ _ _ _ _ Hus1 Hr2 Hs2) in Hget2.
  remember (fresh (dom (holders w1))) as a2 eqn:Ea2.
  assert (a1 ≠ a2) as Hne.
  { intros Heq. pose proof (fresh_holder w1) as Hfresh.
    rewrite <- Ea2, <- Heq, Ha1 in Hfresh. done. }
  assert (holders w2 !! a2 = Some (1, ServiceHolder_void (Some b) r2 s2)
          ∧ holders w2 !! a1 = Some (1, ServiceHolder_void (Some b) r1 s1)
          ∧ bundles w2 = bundles w1
          ∧ owner h2 = Some a2) as (Ha2 & Ha1' & Hb2 & Ho2).
  { injection Hget2 as <- <-. simpl. split; [apply lookup_insert_eq|].
    split; [by rewrite lookup_insert_ne|done]. }
  clear Hget2.
  destruct (release_last_owner_frame _ _ _ Ha1') as (w3 & Hrel1 & Htr3 & Hh3 & Hb3).
  assert (holders w3 !! a2 = Some (1, ServiceHolder_void (Some b) r2 s2)) as Ha2'.
  { rewrite Hh3. by rewrite lookup_delete_ne. }
  destruct (release_last_owner_frame _ _ _ Ha2') as (w4 & Hrel2 & Htr4 & Hh4 & Hb4).
  exists a1, a2, b. repeat split; try done.
  - by apply use_count_lookup in Ha1'.
  - by apply use_count_lookup in Ha2.
  - exists w3, w4. split; [done|].
    split; [unfold use_count; by rewrite Hh3, lookup_delete_eq|].
    split; [by apply use_count_lookup in Ha2'|].
    split; [done|].
    split; [unfold use_count; by rewrite Hh4, lookup_delete_eq|].
    rewrite Htr4, Htr3. cbv beta iota delta [unget_calls].
    rewrite (lock_same_bundles _ _ _ Hb3).
    assert (fst <$> lock (Some b) w2 = Some b) as ->.
    { apply (lock_alive b bp). by rewrite Hb2, Hb1. }
    by rewrite <- app_assoc.
Qed.
End TwoHandles.

(** A run of X7 on the fixture: two gets of the same reference. *)
Lemma GetService_twice_witness :
  ∃ a1 a2 b,
    Some 1%positive = Some a1 ∧ Some 2%positive = Some a2 ∧ a1 ≠ a2
    ∧ use_count a1
        (snd (BundleContext.GetService Fixture.started Fixture.greeter
                (snd (BundleContext.GetService Fixture.started Fixture.greeter
                        (Fixture.world (Fixture.registry "singleton" true false)))))) = 1
    ∧ use_count a2
        (snd (BundleContext.GetService Fixture.started Fixture.greeter
                (snd (BundleContext.GetService Fixture.started Fixture.greeter
                        (Fixture.world (Fixture.registry "singleton" true false)))))) = 1
    ∧ ∃ w3 w4,
        release a1
          (snd (BundleContext.GetService Fixture.started Fixture.greeter
                  (snd (BundleContext.GetService Fixture.started Fixture.greeter
                          (Fixture.world (Fixture.registry "singleton" true false))))))
        = (Ok tt, w3)
        ∧ use_count a1 w3 = 0 ∧ use_count a2 w3 = 1
        ∧ release a2 w3 = (Ok tt, w4) ∧ use_count a2 w4 = 0
        ∧ trace w4
          = [event (reference_GetService Fixture.greeter (Some 1%positive));
             event (reference_GetService Fixture.greeter (Some 1%positive))]
            ++ [event (reference_UngetService Fixture.greeter (Some b) true);
                event (reference_UngetService Fixture.greeter (Some b) true)].
Proof.
  assert (BundleContext.GetService Fixture.started Fixture.greeter
            (Fixture.world (Fixture.registry "singleton" true false))
          = (Ok {| owner := Some 1%positive; get := Some Fixture.the_service |},
             snd (BundleContext.GetService Fixture.started Fixture.greeter
                    (Fixture.world (Fixture.registry "singleton" true false)))))
    as Hget1 by (vm_compute; reflexivity).
  assert (BundleContext.GetService Fixture.started Fixture.greeter
            (snd (BundleContext.GetService Fixture.started Fixture.greeter
                    (Fixture.world (Fixture.registry "singleton" true false))))
          = (Ok {| owner := Some 2%positive; get := Some Fixture.the_service |},
             snd (BundleContext.GetService Fixture.started Fixture.greeter
                    (snd (BundleContext.GetService Fixture.started Fixture.greeter
                            (Fixture.world (Fixture.registry "singleton" true false)))))))
    as Hget2 by (vm_compute; reflexivity).
  exact (GetService_twice _ _ _ _ _ _ _ _ Hget1 Hget2).
Defined.

(** ** What [GetDataFile] leaves alone *)

Section DataFileFrame.
Context {Core : Type} `{!CoreBundleContext Core}.
Implicit Types (w : World Core) (this : BundleContext).


End DataFileFrame.

(** ** Further properties of [ServiceObjects.cpp] *)

Section ServiceObjectsProperties.
Context {Core : Type} {framework : CoreBundleContext Core}.
Implicit Types (w : World Core) (this : ServiceObjectsBasePrivate).

(** X9.  The constructor looks at the reference only: a reference that
    converts to [false] is refused with [std::invalid_argument], and with any
    other reference the object is made for whatever context is passed, a null
    one included.  [GetReference] and [GetServiceReference] then give back
    the reference the object was made from. *)
Theorem constructor_keeps_reference w (context : option addr) reference :
  (ServiceReference_bool reference w = false →
     ServiceObjectsBase.constructor context reference w
     = (Throw (invalid_argument "The service reference is invalid"), w))
  ∧ (ServiceReference_bool reference w = true →
     ∃ this, ServiceObjectsBase.constructor context reference w = (Ok this, w)
       ∧ m_context this = context
       ∧ ServiceObjectsBase.GetReference this = reference
       ∧ ServiceObjects_void.GetServiceReference this = reference).
Proof.
  unfold ServiceObjectsBase.constructor. rewrite bind_gets.
  split; intros ->; simpl; [done|]. by eexists.
Qed.

Lemma GetBundle_no_longer_valid w (ctx : BundleContext) :
  NoLongerValid w ctx →
  BundleContext.GetBundle ctx w = (Throw (runtime_error BundleContext.no_longer_valid), w).
Proof.
  intros Henter%enter_no_longer_valid. unfold BundleContext.GetBundle. by apply bind_throw.
Qed.

(** X10.  With a reference that converts to [true] and a context that is no
    longer valid, [GetService] and [GetServiceInterfaceMap] do not return the
    null handle: they raise "The bundle context is no longer valid", before
    any call to the registry, and leave the store as it was. *)
Theorem ServiceObjects_context_no_longer_valid w this :
  ServiceReference_bool (m_reference this) w = true →
  NoLongerValid w (MakeBundleContext (m_context this)) →
  ServiceObjectsBase.GetService this w
  = (Throw (runtime_error BundleContext.no_longer_valid), w)
  ∧ ServiceObjectsBase.GetServiceInterfaceMap this w
    = (Throw (runtime_error BundleContext.no_longer_valid), w)
  ∧ ServiceObjects_void.GetService this w
    = (Throw (runtime_error BundleContext.no_longer_valid), w).
Proof.
  intros Href Hctx%GetBundle_no_longer_valid.
  assert (ServiceObjectsBase.Private_GetServiceInterfaceMap this w
          = (Throw (runtime_error BundleContext.no_longer_valid), w)) as Hprivate.
  { unfold ServiceObjectsBase.Private_GetServiceInterfaceMap. rewrite bind_gets.
    case_bool_decide; by apply bind_throw. }
  unfold ServiceObjects_void.GetService, ServiceObjectsBase.GetService,
    ServiceObjectsBase.GetServiceInterfaceMap.
  rewrite !bind_gets, Href. simpl. by rewrite !(bind_throw _ _ _ _ _ Hprivate).
Qed.

(** X11.  When the registry's lookup raises, [GetService] and
    [GetServiceInterfaceMap] let the exception through; the one call is
    recorded and no [UngetHelper] is allocated, so no unget will follow. *)
Theorem ServiceObjects_lookup_raises w this b bp e c1 :
  ServiceReference_bool (m_reference this) w = true →
  usable (MakeBundleContext (m_context this)) w = Some (b, bp) →
  core_step
    (if bool_decide (reference_scope (m_reference this) (core w) = SCOPE_PROTOTYPE)
     then reference_GetPrototypeService (m_reference this) (MakeBundle (Some b))
     else reference_GetServiceInterfaceMap (m_reference this) (Some b))
    (core w)
  = (Throw e, c1) →
  ∃ w1,
    ServiceObjectsBase.GetService this w = (Throw e, w1)
    ∧ ServiceObjectsBase.GetServiceInterfaceMap this w = (Throw e, w1)
    ∧ holders w1 = holders w
    ∧ trace w1
      = trace w ++
        [event (if bool_decide (reference_scope (m_reference this) (core w) = SCOPE_PROTOTYPE)
                then reference_GetPrototypeService (m_reference this) (MakeBundle (Some b))
                else reference_GetServiceInterfaceMap (m_reference this) (Some b))].
Proof.
  intros Href Hctx Hstep.
  pose proof (Private_GetServiceInterfaceMap_usable _ _ _ _ Hctx) as Hprivate.
  rewrite call_eq, Hstep in Hprivate. simpl in Hprivate.
  eexists. unfold ServiceObjectsBase.GetService, ServiceObjectsBase.GetServiceInterfaceMap.
  rewrite !bind_gets, Href. simpl. rewrite !(bind_throw _ _ _ _ _ Hprivate).
  by repeat split.
Qed.

Lemma lock_expired (b : weak_ptr) w : expired b w = true → lock b w = None.
Proof. unfold expired. by destruct (lock b w). Qed.

(** X12.  A holder that outlives its bundle: the destructor still makes the
    unget, with a null bundle, and whatever that call does, nothing is
    logged and nothing is raised.  ([UngetHelper] makes the call only for a
    reference that converts to [true], as always.) *)
Theorem destructor_after_bundle_expired w (b : weak_ptr) sref (interfaceMap : InterfaceMapConstPtr) :
  expired b w = true →
  (∃ w', ServiceHolder.destructor b sref w = (Ok tt, w')
     ∧ sink w' = sink w
     ∧ trace w' = trace w ++ [event (reference_UngetService sref None true)])
  ∧ (∃ w', UngetHelper.destructor interfaceMap sref b w = (Ok tt, w')
       ∧ sink w' = sink w
       ∧ trace w'
         = trace w ++
           if ServiceReference_bool sref w
           then [event (if bool_decide (reference_scope sref (core w) = SCOPE_PROTOTYPE)
                        then reference_UngetPrototypeService sref None interfaceMap
                        else reference_UngetService sref None true)]
           else []).
Proof.
  intros Hgone. pose proof (lock_expired _ _ Hgone) as Hlock.
  split.
  - destruct (holder_try_block_spec (ServiceHolder_void b sref None) w)
      as (r & w1 & Htry & Htr & Hsink & _ & Hb & _).
    simpl in Htry, Htr. rewrite Hlock in Htr.
    unfold ServiceHolder.destructor, try_catch. rewrite Htry.
    destruct r as [[]|e]; [by eexists|].
    unfold ServiceHolder.catch_block. rewrite bind_gets.
    unfold expired. rewrite (lock_same_bundles _ _ _ Hb), Hlock. simpl.
    by eexists.
  - destruct (holder_try_block_spec (UngetHelper interfaceMap sref b) w)
      as (r & w1 & Htry & Htr & Hsink & _ & Hb & _).
    simpl in Htry, Htr. rewrite Hlock in Htr.
    unfold UngetHelper.destructor, try_catch. rewrite Htry.
    assert (trace w1 = trace w ++
              if ServiceReference_bool sref w
              then [event (if bool_decide (reference_scope sref (core w) = SCOPE_PROTOTYPE)
                           then reference_UngetPrototypeService sref None interfaceMap
                           else reference_UngetService sref None true)]
              else []) as Htr'.
    { rewrite Htr. destruct (ServiceReference_bool sref w); [|done]. by case_bool_decide. }
    destruct r as [[]|e]; [by eexists|].
    unfold UngetHelper.catch_block. rewrite bind_gets.
    unfold expired. rewrite (lock_same_bundles _ _ _ Hb), Hlock. simpl.
    by eexists.
Qed.
End ServiceObjectsProperties.

(** A run of X9: service objects made for a null context. *)
Lemma constructor_keeps_reference_witness :
  ∃ this,
    ServiceObjectsBase.constructor None Fixture.greeter
      (Fixture.world (Fixture.registry "singleton" true false))
    = (Ok this, Fixture.world (Fixture.registry "singleton" true false))
    ∧ m_context this = None
    ∧ ServiceObjectsBase.GetReference this = Fixture.greeter
    ∧ ServiceObjects_void.GetServiceReference this = Fixture.greeter.
Proof.
  destruct (constructor_keeps_reference (framework := Fixture.framework)
              (Fixture.world (Fixture.registry "singleton" true false)) None Fixture.greeter)
    as [_ Hlive].
  apply Hlive. reflexivity.
Defined.

(** A run of X10: the service objects of the invalidated context 11. *)
Lemma ServiceObjects_context_no_longer_valid_witness :
  ServiceObjectsBase.GetService Scenario.stopped_objects
    (Fixture.world (Fixture.registry "prototype" true false))
  = (Throw (runtime_error BundleContext.no_longer_valid),
     Fixture.world (Fixture.registry "prototype" true false)).
Proof.
  apply (ServiceObjects_context_no_longer_valid (framework := Fixture.framework)
           (Fixture.world (Fixture.registry "prototype" true false))
           Scenario.stopped_objects).
  - reflexivity.
  - constructor. reflexivity.
Defined.

(** A run of X11 on the registry whose every call raises. *)
Lemma ServiceObjects_lookup_raises_witness :
  ∃ w1,
    @ServiceObjectsBase.GetService unit Scenario.raising Fixture.objects Scenario.raising_world
    = (Throw (other_exception "registry failure"), w1)
    ∧ @ServiceObjectsBase.GetServiceInterfaceMap unit Scenario.raising Fixture.objects
        Scenario.raising_world
      = (Throw (other_exception "registry failure"), w1)
    ∧ holders w1 = ∅
    ∧ trace w1 = [event (reference_GetServiceInterfaceMap Fixture.greeter (Some 1%positive))].
Proof.
  apply (ServiceObjects_lookup_raises (framework := Scenario.raising) Scenario.raising_world
           Fixture.objects 1%positive {| bundleDir := "/data/1" |}
           (other_exception "registry failure") tt); reflexivity.
Defined.

(** A run of X12: bundle 9 does not exist any more, and unget raises. *)
Lemma destructor_after_bundle_expired_witness :
  ∃ w',
    ServiceHolder.destructor (Some 9%positive) Fixture.greeter
      (Fixture.world (Fixture.registry "singleton" true true))
    = (Ok tt, w')
    ∧ sink w' = []
    ∧ trace w' = [event (reference_UngetService Fixture.greeter None true)].
Proof.
  destruct (destructor_after_bundle_expired (framework := Fixture.framework)
              (Fixture.world (Fixture.registry "singleton" true true))
              (Some 9%positive) Fixture.greeter None eq_refl) as [Hholder _].
  exact Hholder.
Defined.

(** ** The test bundles *)

Section TestBundles.
Import TestManagedServiceFactoryImpl4.

(** X13.  [ServiceComponentCA05]: after any run of [Modified] calls,
    [GetProperties] answers with the configuration of the last call,
    whatever the contexts passed and whatever was stored before. *)
Theorem Modified_then_GetProperties
    (calls : list (option addr * option AnyMap)) (context : option addr)
    (configuration : option AnyMap) (s : ServiceComponentCA05.State) :
  ServiceComponentCA05.GetProperties
    (ServiceComponentCA05.run (calls ++ [(context, configuration)]) s)
  = configuration.
Proof. unfold ServiceComponentCA05.run. by rewrite foldl_app. Qed.

Lemma int_wrap_small (z : Z) : (0 ≤ z ≤ INT_MAX)%Z → int_wrap z = z.
Proof.
  unfold int_wrap, INT_MAX. intros Hz.
  rewrite Z.mod_small by lia. lia.
Qed.

Lemma count_snoc (f : Call → bool) calls c :
  length (filter (λ c, f c = true) (calls ++ [c]))
  = length (filter (λ c, f c = true) calls) + if f c then 1 else 0.
Proof.
  rewrite filter_app, length_app, filter_cons, filter_nil. f_equal.
  destruct (f c); [by rewrite decide_True|by rewrite decide_False].
Qed.

Lemma updates_snoc pid calls c :
  updates pid (calls ++ [c]) = updates pid calls + if is_Updated pid c then 1 else 0.
Proof. apply count_snoc. Qed.

Lemma removals_snoc pid calls c :
  removals pid (calls ++ [c]) = removals pid calls + if is_Removed pid c then 1 else 0.
Proof. apply count_snoc. Qed.

Lemma seen_snoc config calls c :
  seen config (calls ++ [c]) = seen config calls || touches_updated config c.
Proof. unfold seen. rewrite existsb_app. simpl. by rewrite orb_false_r. Qed.

Lemma unseen_no_updates pid calls : seen pid calls = false → updates pid calls = 0.
Proof.
  induction calls as [|c calls IH]; [done|].
  simpl. intros [Hc Hrest]%orb_false_iff.
  unfold updates in *. rewrite filter_cons.
  rewrite decide_False; [by apply IH|].
  destruct c; simpl in *; congruence.
Qed.

Lemma run_snoc calls c s : run (calls ++ [c]) s = step c (run calls s).
Proof. unfold run. by rewrite foldl_app. Qed.

(** The updated map after a run on a new factory: a pid is bound once it was
    seen, to the number of its updates. *)
Lemma updated_map_after_run pid calls :
  (Z.of_nat (updates pid calls) ≤ INT_MAX)%Z →
  m_updatedCallCount (run calls new) !! pid
  = if seen pid calls then Some (Z.of_nat (updates pid calls)) else None.
Proof.
  induction calls as [|c calls IH] using rev_ind; [done|].
  rewrite updates_snoc, seen_snoc, run_snoc. intros Hmax.
  assert (Z.of_nat (updates pid calls) ≤ INT_MAX)%Z as Hprefix by lia.
  specialize (IH Hprefix).
  destruct c as [ctx|p props|p|p|p|cfg]; simpl in *;
    rewrite ?Nat.add_0_r, ?orb_false_r; try done.
  - unfold Updated, subscript.
    destruct (decide (p = pid)) as [->|Hne].
    + rewrite bool_decide_eq_true_2 in * by done. rewrite orb_true_r.
      rewrite IH. destruct (seen pid calls) eqn:Hseen; simpl; rewrite lookup_insert_eq;
        f_equal.
      * rewrite int_wrap_small; lia.
      * rewrite (unseen_no_updates _ _ Hseen). done.
    + rewrite bool_decide_eq_false_2 in * by done.
      rewrite Nat.add_0_r, orb_false_r.
      destruct (m_updatedCallCount (run calls new) !! p); simpl;
        by rewrite ?lookup_insert_ne by done.
  - unfold Removed, subscript.
    by destruct (m_removedCallCount (run calls new) !! p).
  - unfold getUpdatedCounter, subscript.
    destruct (decide (p = pid)) as [->|Hne].
    + rewrite bool_decide_eq_true_2 by done. rewrite orb_true_r. rewrite IH.
      destruct (seen pid calls) eqn:Hseen; simpl; [done|].
      rewrite lookup_insert_eq. by rewrite (unseen_no_updates _ _ Hseen).
    + rewrite bool_decide_eq_false_2 by done. rewrite orb_false_r.
      destruct (m_updatedCallCount (run calls new) !! p); simpl;
        by rewrite ?lookup_insert_ne by done.
  - unfold getRemovedCounter, subscript.
    by destruct (m_removedCallCount (run calls new) !! p).
Qed.

Lemma removed_map_after_run pid calls :
  (Z.of_nat (removals pid calls) ≤ INT_MAX)%Z →
  default 0%Z (m_removedCallCount (run calls new) !! pid) = Z.of_nat (removals pid calls).
Proof.
  induction calls as [|c calls IH] using rev_ind; [done|].
  rewrite removals_snoc, run_snoc. intros Hmax.
  assert (Z.of_nat (removals pid calls) ≤ INT_MAX)%Z as Hprefix by lia.
  specialize (IH Hprefix).
  destruct c as [ctx|p props|p|p|p|cfg]; simpl in *; rewrite ?Nat.add_0_r; try done.
  - unfold Updated, subscript.
    by destruct (m_updatedCallCount (run calls new) !! p).
  - unfold Removed, subscript.
    destruct (decide (p = pid)) as [->|Hne].
    + rewrite bool_decide_eq_true_2 in * by done.
      destruct (m_removedCallCount (run calls new) !! pid); simpl in *;
        rewrite lookup_insert_eq; simpl; rewrite int_wrap_small; lia.
    + rewrite bool_decide_eq_false_2 in * by done. rewrite Nat.add_0_r.
      destruct (m_removedCallCount (run calls new) !! p); simpl;
        by rewrite ?lookup_insert_ne by done.
  - unfold getUpdatedCounter, subscript.
    by destruct (m_updatedCallCount (run calls new) !! p).
  - unfold getRemovedCounter, subscript.
    destruct (m_removedCallCount (run calls new) !! p) eqn:Hp; simpl; [done|].
    destruct (decide (p = pid)) as [->|Hne].
    + rewrite lookup_insert_eq. simpl. by rewrite Hp in IH.
    + by rewrite lookup_insert_ne.
Qed.

Lemma getUpdatedCounter_lookup pid s :
  fst (getUpdatedCounter pid s) = default 0%Z (m_updatedCallCount s !! pid).
Proof. unfold getUpdatedCounter, subscript. by destruct (_ !! pid). Qed.

Lemma getRemovedCounter_lookup pid s :
  fst (getRemovedCounter pid s) = default 0%Z (m_removedCallCount s !! pid).
Proof. unfold getRemovedCounter, subscript. by destruct (_ !! pid). Qed.

(** X14.  [TestManagedServiceFactoryImpl4]: after any run of calls on a new
    factory, [getUpdatedCounter(pid)] is the number of [Updated(pid, _)] calls
    in the run and [getRemovedCounter(pid)] the number of [Removed(pid)]
    calls, as long as these numbers fit an [int].  Calls for other pids, and
    calls of the other member functions, do not count. *)
Theorem counters_count_calls (pid : string) (calls : list Call) :
  (Z.of_nat (updates pid calls) ≤ INT_MAX)%Z →
  (Z.of_nat (removals pid calls) ≤ INT_MAX)%Z →
  fst (getUpdatedCounter pid (run calls new)) = Z.of_nat (updates pid calls)
  ∧ fst (getRemovedCounter pid (run calls new)) = Z.of_nat (removals pid calls).
Proof.
  intros Hu Hr. split.
  - rewrite getUpdatedCounter_lookup, (updated_map_after_run _ _ Hu).
    destruct (seen pid calls) eqn:Hseen; [done|]. simpl.
    by rewrite (unseen_no_updates _ _ Hseen).
  - rewrite getRemovedCounter_lookup. by apply removed_map_after_run.
Qed.

(** X15.  [create(config)] on a factory that went through a run of calls
    since it was made: it returns [nullptr] when the run has neither an
    [Updated(config, _)] nor a [getUpdatedCounter(config)], and otherwise a
    service constructed from the number of [Updated(config, _)] calls.  In
    particular, in any state, reading the counter of a pid makes a later
    [create] for that pid return a service, built from the value read. *)
Theorem create_after_run (config : string) (calls : list Call) :
  (Z.of_nat (updates config calls) ≤ INT_MAX)%Z →
  create config (run calls new)
  = (if seen config calls
     then Some (make_shared_Impl4 (Z.of_nat (updates config calls)))
     else None)
  ∧ ∀ s, create config (snd (getUpdatedCounter config s))
         = Some (make_shared_Impl4 (fst (getUpdatedCounter config s))).
Proof.
  intros Hu. split.
  - unfold create, at_. rewrite (updated_map_after_run _ _ Hu).
    by destruct (seen config calls).
  - intros s. unfold create, at_, getUpdatedCounter, subscript.
    destruct (m_updatedCallCount s !! config) eqn:Hc; simpl; [by rewrite Hc|].
    by rewrite lookup_insert_eq.
Qed.
End TestBundles.

(** A run of X14: two updates and one removal of "pid.a", with calls for
    another pid in between. *)
Lemma counters_count_calls_witness :
  fst (TestManagedServiceFactoryImpl4.getUpdatedCounter "pid.a"
         (TestManagedServiceFactoryImpl4.run
            [TestManagedServiceFactoryImpl4.call_Updated "pid.a" ∅;
             TestManagedServiceFactoryImpl4.call_Updated "pid.b" ∅;
             TestManagedServiceFactoryImpl4.call_Removed "pid.a";
             TestManagedServiceFactoryImpl4.call_Updated "pid.a" ∅]
            TestManagedServiceFactoryImpl4.new))
  = 2%Z
  ∧ fst (TestManagedServiceFactoryImpl4.getRemovedCounter "pid.a"
           (TestManagedServiceFactoryImpl4.run
              [TestManagedServiceFactoryImpl4.call_Updated "pid.a" ∅;
               TestManagedServiceFactoryImpl4.call_Updated "pid.b" ∅;
               TestManagedServiceFactoryImpl4.call_Removed "pid.a";
               TestManagedServiceFactoryImpl4.call_Updated "pid.a" ∅]
              TestManagedServiceFactoryImpl4.new))
    = 1%Z.
Proof.
  apply (counters_count_calls "pid.a"
           [TestManagedServiceFactoryImpl4.call_Updated "pid.a" ∅;
            TestManagedServiceFactoryImpl4.call_Updated "pid.b" ∅;
            TestManagedServiceFactoryImpl4.call_Removed "pid.a";
            TestManagedServiceFactoryImpl4.call_Updated "pid.a" ∅]);
    by vm_compute.
Defined.

(** A run of X15: a pid that was only removed gets no service; a pid whose
    counter was read gets one. *)
Lemma create_after_run_witness :
  TestManagedServiceFactoryImpl4.create "pid.a"
    (TestManagedServiceFactoryImpl4.run
       [TestManagedServiceFactoryImpl4.call_Removed "pid.a"]
       TestManagedServiceFactoryImpl4.new)
  = None
  ∧ TestManagedServiceFactoryImpl4.create "pid.a"
      (TestManagedServiceFactoryImpl4.run
         [TestManagedServiceFactoryImpl4.call_getUpdatedCounter "pid.a"]
         TestManagedServiceFactoryImpl4.new)
    = Some (TestManagedServiceFactoryImpl4.make_shared_Impl4 0).
Proof.
  split.
  - apply (create_after_run "pid.a" [TestManagedServiceFactoryImpl4.call_Removed "pid.a"]).
    by vm_compute.
  - apply (create_after_run "pid.a"
             [TestManagedServiceFactoryImpl4.call_getUpdatedCounter "pid.a"]).
    by vm_compute.
Defined.

(** ** Equal contexts, and the two gets of service objects *)

Section Congruence.
Context {Core : Type} {framework : CoreBundleContext Core}.
Implicit Types (w : World Core) (a b : BundleContext).

Lemma GetLogSink_no_longer_valid w a :
  NoLongerValid w a →
  BundleContext.GetLogSink a w = (Throw (runtime_error BundleContext.no_longer_valid), w).
Proof.
  intros [|p Hp]; [done|]. unfold BundleContext.GetLogSink; simpl.
  apply bind_throw. unfold BundleContext.CheckValid. by rewrite Hp.
Qed.

Lemma run_no_longer_valid (DIR_SEP : string) w a b op :
  NoLongerValid w a → NoLongerValid w b → run DIR_SEP op a w = run DIR_SEP op b w.
Proof.
  intros Ha Hb.
  pose proof (enter_no_longer_valid w a Ha) as Hentera.
  pose proof (enter_no_longer_valid w b Hb) as Henterb.
  assert (∀ A B (k k' : A → M B) (m m' : M A) e,
            m w = (Throw e, w) → m' w = (Throw e, w) → bind m k w = bind m' k' w) as Hbind.
  { intros A B k k' m m' e Hm Hm'. by rewrite (bind_throw _ _ _ _ _ Hm), (bind_throw _ _ _ _ _ Hm'). }
  destruct op; unfold run, discard;
    try (by repeat first [ eapply Hbind; [exact Hentera|exact Henterb]
                         | eapply Hbind; apply bind_throw; [exact Hentera|exact Henterb] ]).
  - by rewrite !GetLogSink_no_longer_valid.
  - assert (BundleContext.GetService a reference w = BundleContext.GetService b reference w)
      as Heq; [|unfold bind; by rewrite Heq].
    unfold BundleContext.GetService. rewrite !bind_gets.
    destruct (ServiceReference_bool reference w); simpl; [|done].
    by rewrite (bind_throw _ _ _ _ _ Hentera), (bind_throw _ _ _ _ _ Henterb).
  - assert (BundleContext.GetService_U a reference w = BundleContext.GetService_U b reference w)
      as Heq; [|unfold bind; by rewrite Heq].
    unfold BundleContext.GetService_U. rewrite !bind_gets.
    destruct (ServiceReference_bool reference w); simpl; [|done].
    by rewrite (bind_throw _ _ _ _ _ Hentera), (bind_throw _ _ _ _ _ Henterb).
Qed.

(** X16.  [operator==] is a congruence for the member functions: two
    contexts that compare equal in a store give, for every public member
    function and every argument, the same result and the same store. *)
Theorem equal_contexts_behave_alike (DIR_SEP : string) w a b op :
  BundleContext.eq a b w = true →
  run DIR_SEP op a w = run DIR_SEP op b w.
Proof.
  intros [[Ha Hb]|(_ & _ & Hd)]%eq_spec.
  - apply run_no_longer_valid; by apply to_bool_no_longer_valid.
  - destruct a, b; simpl in Hd. by subst.
Qed.
End Congruence.

(** A run of X16: the invalidated context and a default-constructed one
    compare equal, and enumerate bundles alike. *)
Lemma equal_contexts_behave_alike_witness :
  run "/" op_GetBundles Fixture.stopped
    (Fixture.world (Fixture.registry "singleton" true false))
  = run "/" op_GetBundles BundleContext.default_constructed
      (Fixture.world (Fixture.registry "singleton" true false)).
Proof.
  apply (equal_contexts_behave_alike (framework := Fixture.framework)). reflexivity.
Defined.

Section TwoGets.
Context {Core : Type} {framework : CoreBundleContext Core}.
Implicit Types (w : World Core) (this : ServiceObjectsBasePrivate).

(** X17.  [ServiceObjectsBase::GetService] and [GetServiceInterfaceMap] go
    the same way: they raise the same exception and leave the same store
    when they raise, and when [GetService] returns, both return the null
    handle or both return a handle on the same new block, with the same
    store left behind.  The one case apart is the read that the source
    leaves undefined: it is met exactly when [GetServiceInterfaceMap] hands
    out a map with no entry for the interface id of the reference. *)
Theorem GetService_and_GetServiceInterfaceMap_agree w this :
  match fst (ServiceObjectsBase.GetService this w),
        fst (ServiceObjectsBase.GetServiceInterfaceMap this w) with
  | Ok (Value h), Ok h' =>
      owner h = owner h'
      ∧ snd (ServiceObjectsBase.GetService this w)
        = snd (ServiceObjectsBase.GetServiceInterfaceMap this w)
      ∧ (get h' = None → h = nullptr)
      ∧ (∀ im, get h' = Some im → get h = im !! GetInterfaceId (m_reference this)
                                  ∧ is_Some (get h))
  | Ok Undefined, Ok h' =>
      ∃ im, get h' = Some im ∧ im !! GetInterfaceId (m_reference this) = None
  | Throw e, Throw e' =>
      e = e'
      ∧ snd (ServiceObjectsBase.GetService this w)
        = snd (ServiceObjectsBase.GetServiceInterfaceMap this w)
  | _, _ => False
  end.
Proof.
  unfold ServiceObjectsBase.GetService, ServiceObjectsBase.GetServiceInterfaceMap.
  rewrite !bind_gets.
  destruct (ServiceReference_bool (m_reference this) w); simpl; [|by repeat split].
  destruct (ServiceObjectsBase.Private_GetServiceInterfaceMap this w)
    as [[[im|]|e] w1] eqn:Hprivate.
  - rewrite !(bind_ok _ _ _ _ _ Hprivate), !bind_gets.
    destruct (ServiceObjectsBase.context_lock this w1) as [[b bp]|]; [|by repeat split].
    unfold bind, make_shared.
    destruct (im !! GetInterfaceId (m_reference this)) as [service|] eqn:Hentry; simpl.
    + split; [done|]. split; [done|]. split; [done|].
      intros im' [= <-]. by rewrite Hentry.
    + by exists im.
  - rewrite !(bind_ok _ _ _ _ _ Hprivate). by repeat split.
  - by rewrite !(bind_throw _ _ _ _ _ Hprivate).
Qed.
End TwoGets.
